(** * deploy.py: the setup-and-deployment script of microcap-quant

    A shallow embedding of [deploy.py].  Python text is a list of Unicode
    code points, the script's effects (console, file system, child
    processes, [sys.exit], exceptions) are threaded through a state and
    error monad over an explicit [World].

    The embedding starts at [main()]: the interpreter is taken to accept
    the file.  The console is the decoded text of standard input, read
    line by line, and the writes of the script to standard output.  The
    file system holds the entries the script can meet by their path, with
    the failures of [mkdir] and [open] that depend on what is there (a
    missing parent, a file or a directory in the way); permissions,
    signals and a full disk are not modelled.  A child process is what
    [subprocess.run] makes of it: its status, its captured output, the
    time it takes, or the failure to start it. *)

From Stdlib Require Import ZArith NArith List Ascii String DecimalString.
From stdpp Require Import base gmap list.

Open Scope Z_scope.

(** ** Python text *)

(** A [str] is a sequence of code points. *)
Abbreviation str := (list N).

(** Literals are written as in the source; the bytes of the literal are
    decoded from UTF-8. *)
Fixpoint utf8_decode (bs : list N) : str :=
  match bs with
  | [] => []
  | b0 :: r0 =>
    if (b0 <? 128)%N then b0 :: utf8_decode r0 else
    match r0 with
    | [] => [b0]
    | b1 :: r1 =>
      if (b0 <? 224)%N then (b0 mod 32 * 64 + b1 mod 64)%N :: utf8_decode r1 else
      match r1 with
      | [] => [b0; b1]
      | b2 :: r2 =>
        if (b0 <? 240)%N
        then (b0 mod 16 * 4096 + b1 mod 64 * 64 + b2 mod 64)%N :: utf8_decode r2
        else
        match r2 with
        | [] => [b0; b1; b2]
        | b3 :: r3 =>
          (b0 mod 8 * 262144 + b1 mod 64 * 4096 + b2 mod 64 * 64 + b3 mod 64)%N
            :: utf8_decode r3
        end
      end
    end
  end.

Definition py (s : string) : str :=
  utf8_decode (List.map N_of_ascii (list_ascii_of_string s)).


Definition LF : N := 10.
Definition nl : str := [LF].

(** [str.isspace] on one code point: the characters Python strips. *)
Definition is_space (c : N) : bool :=
  ((9 <=? c) && (c <=? 13) || (28 <=? c) && (c <=? 32)
   || (c =? 133) || (c =? 160) || (c =? 5760)
   || (8192 <=? c) && (c <=? 8202) || (c =? 8232) || (c =? 8233)
   || (c =? 8239) || (c =? 8287) || (c =? 12288))%N.

Fixpoint lstrip (s : str) : str :=
  match s with
  | c :: s' => if is_space c then lstrip s' else s
  | [] => []
  end.

Definition rstrip (s : str) : str := rev (lstrip (rev s)).

(** [s.strip()] *)
Definition strip (s : str) : str := rstrip (lstrip s).

(** [a or b] on strings: the empty string is falsy. *)
Definition str_or (a b : str) : str :=
  match a with [] => b | _ :: _ => a end.

(** [s == t] *)
Fixpoint str_eqb (s t : str) : bool :=
  match s, t with
  | [], [] => true
  | c :: s', d :: t' => (c =? d)%N && str_eqb s' t'
  | _, _ => false
  end.

(** [s.startswith(p)] *)
Fixpoint startswith (s p : str) : bool :=
  match p, s with
  | [], _ => true
  | d :: p', c :: s' => (c =? d)%N && startswith s' p'
  | _ :: _, [] => false
  end.

(** [s * n] *)
Definition str_mul (s : str) (n : nat) : str := concat (repeat s n).

(** [str(n)] for an integer. *)
Definition str_of_Z (n : Z) : str := py (NilZero.string_of_int (Z.to_int n)).

(** ** Exceptions *)

Inductive OSErrorKind :=
| FileNotFoundError | PermissionError | FileExistsError
| IsADirectoryError | NotADirectoryError.

(** The exceptions this script can meet.  All of them derive from
    [Exception]; [SystemExit] does not and is a result of its own
    (see [Res]). *)
Inductive Exc :=
| EOFError
| KeyError (key : str)
| ValueError
| OSError (kind : OSErrorKind)
| CalledProcessError (returncode : Z) (cmd : list str) (output stderr : option str)
| TimeoutExpired (cmd : list str) (timeout : N) (output stderr : option str).

Definition is_CalledProcessError (e : Exc) : bool :=
  match e with CalledProcessError _ _ _ _ => true | _ => false end.

(** ** [str.format] with keyword arguments *)

Definition lbrace : N := 123.
Definition rbrace : N := 125.

(** The markup of a format string: literal text, each piece optionally
    followed by a replacement field.  [lit] and [fld] accumulate, reversed,
    the literal text and the field name being read.  The templates of this
    script only have plain keyword fields and no doubled braces; a field
    with a conversion, a format spec, an attribute or an index, and the
    empty field, are refused here. *)
Fixpoint parse_markup (s lit : str) (fld : option str)
  : option (list (str * option str)) :=
  match s with
  | [] =>
    match fld with
    | None => Some (match lit with [] => [] | _ => [(rev lit, None)] end)
    | Some _ => None
    end
  | c :: s' =>
    match fld with
    | Some name =>
      if (c =? rbrace)%N then
        match name with
        | [] => None
        | _ => cons (rev lit, Some (rev name)) <$> parse_markup s' [] None
        end
      else if ((c =? lbrace) || (c =? 33) || (c =? 58) || (c =? 46) || (c =? 91))%N
      then None
      else parse_markup s' lit (Some (c :: name))
    | None =>
      if (c =? lbrace)%N then
        match s' with
        | c' :: s'' =>
          if (c' =? lbrace)%N then parse_markup s'' (lbrace :: lit) None
          else parse_markup s' lit (Some [])
        | [] => None
        end
      else if (c =? rbrace)%N then
        match s' with
        | c' :: s'' =>
          if (c' =? rbrace)%N then parse_markup s'' (rbrace :: lit) None
          else None
        | [] => None
        end
      else parse_markup s' (c :: lit) None
    end
  end.

Definition formatter_parser (s : str) : option (list (str * option str)) :=
  parse_markup s [] None.

Fixpoint kw_get (name : str) (kwargs : list (str * str)) : option str :=
  match kwargs with
  | [] => None
  | (k, v) :: kwargs' => if str_eqb k name then Some v else kw_get name kwargs'
  end.

Fixpoint vformat (ps : list (str * option str)) (kwargs : list (str * str))
  : Exc + str :=
  match ps with
  | [] => inr []
  | (lit, None) :: ps' =>
    match vformat ps' kwargs with
    | inr r => inr (lit ++ r)
    | inl e => inl e
    end
  | (lit, Some name) :: ps' =>
    match kw_get name kwargs with
    | None => inl (KeyError name)
    | Some v =>
      match vformat ps' kwargs with
      | inr r => inr (lit ++ v ++ r)
      | inl e => inl e
      end
    end
  end.

(** [template.format(k1=v1, ...)] *)
Definition format (template : str) (kwargs : list (str * str)) : Exc + str :=
  match formatter_parser template with
  | None => inl ValueError
  | Some ps => vformat ps kwargs
  end.

(** ** The world the script runs in *)

(** What a child process does once started: it ends after [elapsed]
    seconds with a return code, having written [out] and [err]; or it
    cannot be started at all (the executable is missing, not permitted). *)
Inductive Child :=
| Exits (elapsed : N) (returncode : Z) (out err : str)
| NoSpawn (kind : OSErrorKind).

(** The interpreter and its surroundings, fixed during a run.  [child]
    answers for the external programs; every command line of the script
    is run at most once per run, so a function of the command line covers
    every behaviour of the environment.  [exc_str] is [str(e)], the
    library's rendering of an exception. *)
Record Host := mkHost {
  version_info : Z * Z;
  sys_version : str;
  sys_executable : str;
  getenv_USER : option str;
  getcwd : str;
  child : list str -> Child;
  exc_str : Exc -> str
}.

Inductive node := Dir | File (content : str).

Inductive Out := Printed (line : str) | Prompted (prompt : str).

(** [stdin] is the text still to be read, [stdout] what was written so
    far, [fs] the entries of the file system by path, [spawned] the
    command lines handed to [subprocess.run] so far. *)
Record World := mkWorld {
  host : Host;
  stdin : str;
  stdout : list Out;
  fs : gmap str node;
  spawned : list (list str)
}.

Definition set_stdin (s : str) (w : World) : World :=
  mkWorld (host w) s (stdout w) (fs w) (spawned w).
Definition set_stdout (o : list Out) (w : World) : World :=
  mkWorld (host w) (stdin w) o (fs w) (spawned w).
Definition set_fs (f : gmap str node) (w : World) : World :=
  mkWorld (host w) (stdin w) (stdout w) f (spawned w).
Definition set_spawned (l : list (list str)) (w : World) : World :=
  mkWorld (host w) (stdin w) (stdout w) (fs w) l.

(** ** The monad of the script *)

(** A call returns, leaves through [sys.exit] or raises. *)
Inductive Res (A : Type) :=
| Ret (a : A)
| Exit (status : Z)
| Raise (e : Exc).
Arguments Ret {A} a.
Arguments Exit {A} status.
Arguments Raise {A} e.

Definition M (A : Type) : Type := World -> Res A * World.

#[global] Instance M_ret : MRet M := fun A a w => (Ret a, w).

#[global] Instance M_bind : MBind M := fun A B f m w =>
  match m w with
  | (Ret a, w') => f a w'
  | (Exit s, w') => (Exit s, w')
  | (Raise e, w') => (Raise e, w')
  end.

(** [try: body except <catches> as e: handler e] *)
Definition try_except {A} (body : M A) (catches : Exc -> bool)
    (handler : Exc -> M A) : M A := fun w =>
  match body w with
  | (Raise e, w') => if catches e then handler e w' else (Raise e, w')
  | r => r
  end.

(** [for x in xs: body x] *)
Fixpoint for_each {A} (xs : list A) (body : A -> M unit) : M unit :=
  match xs with
  | [] => mret tt
  | x :: xs' => body x ;; for_each xs' body
  end.

(** The status the process ends with: an uncaught exception ends it
    with status 1. *)
Definition exit_status {A} (r : Res A) : Z :=
  match r with Ret _ => 0 | Exit s => s | Raise _ => 1 end.

(** ** Library calls *)

Definition sys_exit {A} (status : Z) : M A := fun w => (Exit status, w).

Definition print (line : str) : M unit := fun w =>
  (Ret tt, set_stdout (stdout w ++ [Printed line]) w).

(** The next line of the input, without its newline. *)
Fixpoint readline (s : str) : str * str :=
  match s with
  | [] => ([], [])
  | c :: s' =>
    if (c =? LF)%N then ([], s')
    else let (l, r) := readline s' in (c :: l, r)
  end.

(** [input(prompt)]: end of input with nothing read raises [EOFError]. *)
Definition input (prompt : str) : M str := fun w =>
  let w1 := set_stdout (stdout w ++ [Prompted prompt]) w in
  match stdin w with
  | [] => (Raise EOFError, w1)
  | _ :: _ => let (l, r) := readline (stdin w) in (Ret l, set_stdin r w1)
  end.

Record CompletedProcess := mkCompleted {
  returncode : Z;
  cp_stdout : option str;
  cp_stderr : option str
}.

(** [subprocess.run(args, check=.., capture_output=.., timeout=..)].
    Output that is not captured goes to the inherited descriptors and is
    no write of the script. *)
Definition subprocess_run (args : list str) (check capture_output : bool)
    (timeout : option N) : M CompletedProcess := fun w =>
  let w1 := set_spawned (spawned w ++ [args]) w in
  let cap (s : str) := if capture_output then Some s else None in
  match child (host w) args with
  | NoSpawn k => (Raise (OSError k), w1)
  | Exits elapsed rc out err =>
    match timeout with
    | Some t =>
      if (t <? elapsed)%N
      then (Raise (TimeoutExpired args t (cap out) (cap err)), w1)
      else if check && negb (rc =? 0)
      then (Raise (CalledProcessError rc args (cap out) (cap err)), w1)
      else (Ret (mkCompleted rc (cap out) (cap err)), w1)
    | None =>
      if check && negb (rc =? 0)
      then (Raise (CalledProcessError rc args (cap out) (cap err)), w1)
      else (Ret (mkCompleted rc (cap out) (cap err)), w1)
    end
  end.

Definition slash : N := 47.

(** The text before the last slash of a path, if it has one; [before_slash]
    walks the reversed path. *)
Fixpoint before_slash (r : str) : option str :=
  match r with
  | [] => None
  | c :: r' => if (c =? slash)%N then Some r' else before_slash r'
  end.

Definition dirname (p : str) : option str :=
  match before_slash (rev p) with
  | Some d => Some (rev d)
  | None => None
  end.

(** Whether an entry can be created at [p]: the directory it goes into
    has to exist.  A path without a slash goes into the working
    directory, an empty [dirname] is the root. *)
Definition parent_check (f : gmap str node) (p : str) : option OSErrorKind :=
  match dirname p with
  | None | Some [] => None
  | Some d =>
    match f !! d with
    | Some Dir => None
    | Some (File _) => Some NotADirectoryError
    | None => Some FileNotFoundError
    end
  end.

(** [Path(p).mkdir(exist_ok=..)] *)
Definition Path_mkdir (p : str) (exist_ok : bool) : M unit := fun w =>
  match fs w !! p with
  | Some Dir =>
    if exist_ok then (Ret tt, w) else (Raise (OSError FileExistsError), w)
  | Some (File _) => (Raise (OSError FileExistsError), w)
  | None =>
    match parent_check (fs w) p with
    | Some k => (Raise (OSError k), w)
    | None => (Ret tt, set_fs (<[p := Dir]> (fs w)) w)
    end
  end.

(** [with open(p, "w") as f: f.write(content)] *)
Definition write_file (p content : str) : M unit := fun w =>
  match fs w !! p with
  | Some Dir => (Raise (OSError IsADirectoryError), w)
  | Some (File _) => (Ret tt, set_fs (<[p := File content]> (fs w)) w)
  | None =>
    match parent_check (fs w) p with
    | Some k => (Raise (OSError k), w)
    | None => (Ret tt, set_fs (<[p := File content]> (fs w)) w)
    end
  end.

(** [str(x)] of a value that may be [None]. *)
Definition str_of_opt (o : option str) : str :=
  match o with Some s => s | None => py "None" end.

(** Reading the host inside the monad. *)
Definition ask {A} (f : Host -> A) : M A := fun w => (Ret (f (host w)), w).

Definition raise {A} (e : Exc) : M A := fun w => (Raise e, w).

Definition lift_exc {A} (r : Exc + A) : M A :=
  match r with inl e => raise e | inr a => mret a end.

(** ** The script *)

Definition print_banner : M unit :=
  print (str_mul (py "=") 60);;
  print (py "🚀 MICROCAP QUANT - DEPLOYMENT SCRIPT");;
  print (str_mul (py "=") 60);;
  print (py "AI-Powered Microcap Trading Bot");;
  print (py "Version: 0.2.0");;
  print (str_mul (py "=") 60).

(** [sys.version_info < (3, 9)]: tuples compare lexicographically, and a
    longer tuple with the prefix [(3, 9)] is not below it. *)
Definition version_lt_3_9 (v : Z * Z) : bool :=
  let (major, minor) := v in (major <? 3) || ((major =? 3) && (minor <? 9)).

Definition check_python_version : M unit :=
  v ← ask version_info;
  (if version_lt_3_9 v then
     print (py "❌ Error: Python 3.9+ required");;
     sv ← ask sys_version;
     print (py "Current version: " ++ sv);;
     sys_exit 1
   else mret tt);;
  print (py "✅ Python " ++ str_of_Z (fst v) ++ py "." ++ str_of_Z (snd v)
           ++ py " detected").

Definition env_template : str := py "# =============================================================================
# MICROCAP QUANT - ENVIRONMENT VARIABLES
# =============================================================================

# =============================================================================
# AI API KEYS (Required)
# =============================================================================

# OpenAI API Key (Required for GPT-4o and o3 deep research)
# Get from: https://platform.openai.com/api-keys
OPENAI_API_KEY={openai_key}

# Anthropic API Key (Optional - backup AI provider)
# Get from: https://console.anthropic.com/
ANTHROPIC_API_KEY={anthropic_key}

# Groq API Key (Optional - fast inference backup)
# Get from: https://console.groq.com/
GROQ_API_KEY={groq_key}

# =============================================================================
# TRADING API KEYS (Required)
# =============================================================================

# Alpaca Trading API Keys
# Get from: https://alpaca.markets/ (Paper Trading for testing)
ALPACA_API_KEY={alpaca_key}
ALPACA_SECRET_KEY={alpaca_secret}

# =============================================================================
# AI MODEL CONFIGURATION
# =============================================================================

# Primary AI model for daily decisions (16:30 EST cycle)
AI_PRIMARY_MODEL=gpt-4o

# Backup AI model if primary fails
AI_BACKUP_MODEL=gpt-4

# Deep research model for pre-market analysis (09:30 EST cycle)
AI_RESEARCH_MODEL=o3-deep-research-2025-06-26

# =============================================================================
# TRADING CONFIGURATION
# =============================================================================

# Set to false for live trading (default: true for safety)
PAPER_TRADING=true

# Starting capital in USD
STARTING_CASH={starting_cash}

# Maximum position size as percentage (0.15 = 15%)
MAX_POSITION_PCT=0.15

# Stop loss percentage (0.15 = 15%)
STOP_LOSS_PCT=0.15

# Maximum daily loss before circuit breaker (0.05 = 5%)
MAX_DAILY_LOSS=0.05

# =============================================================================
# NOTIFICATIONS (Optional)
# =============================================================================

# Slack webhook for alerts
SLACK_WEBHOOK={slack_webhook}

# Email notifications (requires SMTP setup)
EMAIL_ALERTS=false
EMAIL_FROM={email_from}
EMAIL_TO={email_to}
EMAIL_PASSWORD={email_password}

# =============================================================================
# ADVANCED SETTINGS
# =============================================================================

# Market cap maximum for microcap universe ($300M default)
MARKET_CAP_MAX=300000000

# Minimum daily volume filter ($50K default)
MIN_VOLUME=50000

# Timezone for trading schedules
TIMEZONE=US/Eastern

# Data directory for portfolio and trade logs
DATA_DIR=data
".

Definition create_env_file : M unit :=
  print (nl ++ py "🔑 API KEY SETUP");;
  print (str_mul (py "=") 40);;
  l ← input (py "Enter your OpenAI API key (sk-...): ");
  let openai_key := strip l in
  (if negb (startswith openai_key (py "sk-"))
   then print (py "⚠️  Warning: OpenAI key should start with 'sk-'")
   else mret tt);;
  l ← input (py "Enter your Anthropic API key (optional, sk-ant-...): ");
  let anthropic_key := strip l in
  l ← input (py "Enter your Groq API key (optional, gsk-...): ");
  let groq_key := strip l in
  l ← input (py "Enter your Alpaca API key: ");
  let alpaca_key := strip l in
  l ← input (py "Enter your Alpaca Secret key: ");
  let alpaca_secret := strip l in
  print (nl ++ py "💰 TRADING CONFIGURATION");;
  print (str_mul (py "=") 40);;
  l ← input (py "Starting capital (default: 1000): ");
  let starting_cash := str_or (strip l) (py "1000") in
  print (nl ++ py "📧 NOTIFICATIONS (Optional)");;
  print (str_mul (py "=") 40);;
  l ← input (py "Slack webhook URL (optional): ");
  let slack_webhook := str_or (strip l) [] in
  l ← input (py "Email for notifications (optional): ");
  let email_from := str_or (strip l) [] in
  l ← input (py "Email to receive reports (optional): ");
  let email_to := str_or (strip l) [] in
  l ← input (py "Email app password (optional): ");
  let email_password := str_or (strip l) [] in
  env_content ← lift_exc (format env_template
    [(py "openai_key", openai_key);
     (py "anthropic_key", anthropic_key);
     (py "groq_key", groq_key);
     (py "alpaca_key", alpaca_key);
     (py "alpaca_secret", alpaca_secret);
     (py "starting_cash", starting_cash);
     (py "slack_webhook", slack_webhook);
     (py "email_from", email_from);
     (py "email_to", email_to);
     (py "email_password", email_password)]);
  write_file (py ".env") env_content;;
  print (py "✅ .env file created successfully").

Definition pip_install (exe : str) : list str :=
  [exe; py "-m"; py "pip"; py "install"; py "-r"; py "requirements.txt"].

Definition install_dependencies : M unit :=
  print (nl ++ py "📦 INSTALLING DEPENDENCIES");;
  print (str_mul (py "=") 40);;
  try_except
    (exe ← ask sys_executable;
     subprocess_run (pip_install exe) true true None;;
     print (py "✅ Dependencies installed successfully"))
    is_CalledProcessError
    (fun e =>
       es ← ask (fun h => exc_str h e);
       print (py "❌ Error installing dependencies: " ++ es);;
       print (py "Error output: "
              ++ str_of_opt (match e with
                             | CalledProcessError _ _ _ err => err
                             | _ => None
                             end));;
       sys_exit 1).

Definition smoke_test (exe : str) : list str := [exe; py "tests/test_ai_only.py"].

Definition run_tests : M unit :=
  print (nl ++ py "🧪 RUNNING TESTS");;
  print (str_mul (py "=") 40);;
  try_except
    (exe ← ask sys_executable;
     result ← subprocess_run (smoke_test exe) false true (Some 60%N);
     if returncode result =? 0 then
       print (py "✅ AI connection test passed")
     else
       print (py "⚠️  AI test failed - check your API keys");;
       print (py "Error: " ++ str_of_opt (cp_stderr result)))
    (fun _ => true)
    (fun e =>
       es ← ask (fun h => exc_str h e);
       print (py "⚠️  Test failed: " ++ es)).

(** The loop of [create_directories], over any list of paths. *)
Definition mkdir_each (directories : list str) : M unit :=
  for_each directories (fun directory =>
    Path_mkdir directory true;;
    print (py "✅ Created " ++ directory ++ py "/")).

Definition create_directories : M unit :=
  print (nl ++ py "📁 CREATING DIRECTORIES");;
  print (str_mul (py "=") 40);;
  let directories := [py "data"; py "logs"; py "reports"] in
  mkdir_each directories.

Definition deploy_railway : M unit :=
  print (nl ++ py "🚂 RAILWAY DEPLOYMENT");;
  print (str_mul (py "=") 40);;
  print (py "1. Install Railway CLI: npm install -g @railway/cli");;
  print (py "2. Login: railway login");;
  print (py "3. Deploy: railway up");;
  print (nl ++ py "Or use the web interface:");;
  print (py "1. Go to https://railway.app");;
  print (py "2. Connect your GitHub repository");;
  print (py "3. Add environment variables from .env file");;
  print (py "4. Deploy!").

Definition deploy_render : M unit :=
  print (nl ++ py "🎨 RENDER DEPLOYMENT");;
  print (str_mul (py "=") 40);;
  print (py "1. Go to https://render.com");;
  print (py "2. Connect your GitHub repository");;
  print (py "3. Create a new Web Service");;
  print (py "4. Add environment variables from .env file");;
  print (py "5. Set build command: pip install -r requirements.txt");;
  print (py "6. Set start command: python -m auto_trader.automated_trader").

Definition docker_probe : list str := [py "docker"; py "--version"].
Definition docker_build : list str :=
  [py "docker"; py "build"; py "-t"; py "microcap-quant"; py "."].
Definition docker_run (cwd : str) : list str :=
  [py "docker"; py "run"; py "-d"; py "--name"; py "microcap-quant-bot";
   py "--env-file"; py ".env";
   py "-v"; cwd ++ py "/data:/app/data";
   py "microcap-quant"].

Definition deploy_docker : M unit :=
  print (nl ++ py "🐳 DOCKER DEPLOYMENT");;
  print (str_mul (py "=") 40);;
  try_except
    (subprocess_run docker_probe true true None;;
     print (py "✅ Docker detected");;
     subprocess_run docker_build true false None;;
     print (py "✅ Docker image built");;
     cwd ← ask getcwd;
     subprocess_run (docker_run cwd) true false None;;
     print (py "✅ Docker container started"))
    is_CalledProcessError
    (fun _ =>
       print (py "❌ Docker not available or failed");;
       print (py "Install Docker from https://docker.com")).

Definition service_template : str := py "[Unit]
Description=Microcap Quant Trading Bot
After=network.target

[Service]
Type=simple
User={user}
WorkingDirectory={cwd}
Environment=PATH={cwd}/venv/bin
ExecStart={cwd}/venv/bin/python -m auto_trader.automated_trader
Restart=always
RestartSec=10

[Install]
WantedBy=multi-user.target
".

Definition deploy_local : M unit :=
  print (nl ++ py "💻 LOCAL DEPLOYMENT");;
  print (str_mul (py "=") 40);;
  user ← ask getenv_USER;
  cwd ← ask getcwd;
  service_content ← lift_exc (format service_template
    [(py "user", str_of_opt user); (py "cwd", cwd)]);
  write_file (py "microcap-quant.service") service_content;;
  print (py "✅ Systemd service file created: microcap-quant.service");;
  print (nl ++ py "To start the service:");;
  print (py "sudo cp microcap-quant.service /etc/systemd/system/");;
  print (py "sudo systemctl enable microcap-quant");;
  print (py "sudo systemctl start microcap-quant").

Definition show_deployment_options : M unit :=
  print (nl ++ py "🚀 DEPLOYMENT OPTIONS");;
  print (str_mul (py "=") 40);;
  print (py "1. Railway (Recommended - Zero maintenance)");;
  print (py "2. Render (Alternative cloud platform)");;
  print (py "3. Local Docker");;
  print (py "4. Local Python");;
  l ← input (nl ++ py "Select deployment option (1-4): ");
  let choice := strip l in
  if str_eqb choice (py "1") then deploy_railway
  else if str_eqb choice (py "2") then deploy_render
  else if str_eqb choice (py "3") then deploy_docker
  else if str_eqb choice (py "4") then deploy_local
  else print (py "Invalid choice. Exiting.").

(** What [main] prints once the dispatcher has returned. *)
Definition print_complete : M unit :=
  print (nl ++ py "🎉 DEPLOYMENT COMPLETE!");;
  print (str_mul (py "=") 40);;
  print (py "Your Microcap Quant bot is ready to trade!");;
  print (nl ++ py "📊 Monitor your bot:");;
  print (py "- Check logs in logs/ directory");;
  print (py "- View portfolio in data/ directory");;
  print (py "- Review performance reports");;
  print (nl ++ py "⚠️  IMPORTANT:");;
  print (py "- Bot starts in PAPER TRADING mode for safety");;
  print (py "- Set PAPER_TRADING=false in .env for live trading");;
  print (py "- Monitor first few trades closely");;
  print (py "- All trades are logged for review").

Definition main : M unit :=
  print_banner;;
  check_python_version;;
  create_env_file;;
  install_dependencies;;
  create_directories;;
  run_tests;;
  show_deployment_options;;
  print_complete.

(** ** Reading a configuration document

    The document is a sequence of lines; a line that is empty or starts
    with [#] carries nothing, any other line with an [=] is the entry
    [KEY=value], split at its first [=]. *)

Fixpoint lines (s : str) : list str :=
  match s with
  | [] => [[]]
  | c :: s' =>
    if (c =? LF)%N then [] :: lines s'
    else match lines s' with
         | l :: ls => (c :: l) :: ls
         | [] => [[c]]
         end
  end.

Fixpoint break_eq (l : str) : option (str * str) :=
  match l with
  | [] => None
  | c :: l' =>
    if (c =? 61)%N then Some ([], l')
    else match break_eq l' with
         | Some (k, v) => Some (c :: k, v)
         | None => None
         end
  end.

Definition entry (l : str) : option (str * str) :=
  match l with
  | [] => None
  | c :: _ => if (c =? 35)%N then None else break_eq l
  end.

Definition entries (doc : str) : list (str * str) := omap entry (lines doc).

(** The keys of a document, in order, one per entry. *)
Definition keys (doc : str) : list str := (entries doc).*1.

(** The value a flat key/value reader finds under a key. *)
Definition value_of (key doc : str) : option str := kw_get key (entries doc).

(** The first [n] answers of the operator found in the input, and what is
    left of the input after them. *)
Definition read1 (s : str) : option (str * str) :=
  match s with [] => None | _ :: _ => Some (readline s) end.

Fixpoint read_lines (n : nat) (s : str) : option (list str * str) :=
  match n with
  | O => Some ([], s)
  | S n' =>
    match read1 s with
    | None => None
    | Some (l, r) =>
      match read_lines n' r with
      | None => None
      | Some (ls, r') => Some (l :: ls, r')
      end
    end
  end.

(** A text without a newline. *)
Definition LF_free (s : str) : Prop := Forall (fun c => c ≠ LF) s.

(** A call that returns [a] and leaves the world [w']. *)
Definition runs {A} (m : M A) (w : World) (a : A) (w' : World) : Prop :=
  m w = (Ret a, w').

(** ** Lines of rendered text *)

(** The lines of [a ++ b] from those of [a] and [b]: the last line of [a]
    goes on with the first line of [b]. *)
Fixpoint cat_lines (xs ys : list str) : list str :=
  match xs with
  | [] => ys
  | x :: xs' =>
    match xs' with
    | [] => match ys with y :: ys' => (x ++ y) :: ys' | [] => [x] end
    | _ :: _ => x :: cat_lines xs' ys
    end
  end.

(** A field value that holds no newline joins the line it stands in. *)
Definition join_field (v : str) (rest : list str) : list str :=
  match rest with
  | [] => [v]
  | y :: ys => (match y with [] => v | _ :: _ => v ++ y end) :: ys
  end.

(** The lines of a rendered template, piece by piece. *)
Fixpoint sym_lines (ps : list (str * option str)) (kwargs : list (str * str))
  : list str :=
  match ps with
  | [] => [[]]
  | (lit, f) :: ps' =>
    let rest := sym_lines ps' kwargs in
    cat_lines (lines lit)
      match f with
      | None => rest
      | Some name =>
        match kw_get name kwargs with
        | Some v => join_field v rest
        | None => rest
        end
      end
  end.

(** ** The document [create_env_file] renders *)

(** The keyword arguments of the [format] call. *)
Definition env_kwargs (openai_key anthropic_key groq_key alpaca_key alpaca_secret
    starting_cash slack_webhook email_from email_to email_password : str)
  : list (str * str) :=
  [(py "openai_key", openai_key);
   (py "anthropic_key", anthropic_key);
   (py "groq_key", groq_key);
   (py "alpaca_key", alpaca_key);
   (py "alpaca_secret", alpaca_secret);
   (py "starting_cash", starting_cash);
   (py "slack_webhook", slack_webhook);
   (py "email_from", email_from);
   (py "email_to", email_to);
   (py "email_password", email_password)].

(** The entries of the rendered template, by the values filled in. *)
Definition env_entries (openai_key anthropic_key groq_key alpaca_key alpaca_secret
    starting_cash slack_webhook email_from email_to email_password : str)
  : list (str * str) :=
  [(py "OPENAI_API_KEY", openai_key);
   (py "ANTHROPIC_API_KEY", anthropic_key);
   (py "GROQ_API_KEY", groq_key);
   (py "ALPACA_API_KEY", alpaca_key);
   (py "ALPACA_SECRET_KEY", alpaca_secret);
   (py "AI_PRIMARY_MODEL", py "gpt-4o");
   (py "AI_BACKUP_MODEL", py "gpt-4");
   (py "AI_RESEARCH_MODEL", py "o3-deep-research-2025-06-26");
   (py "PAPER_TRADING", py "true");
   (py "STARTING_CASH", starting_cash);
   (py "MAX_POSITION_PCT", py "0.15");
   (py "STOP_LOSS_PCT", py "0.15");
   (py "MAX_DAILY_LOSS", py "0.05");
   (py "SLACK_WEBHOOK", slack_webhook);
   (py "EMAIL_ALERTS", py "false");
   (py "EMAIL_FROM", email_from);
   (py "EMAIL_TO", email_to);
   (py "EMAIL_PASSWORD", email_password);
   (py "MARKET_CAP_MAX", py "300000000");
   (py "MIN_VOLUME", py "50000");
   (py "TIMEZONE", py "US/Eastern");
   (py "DATA_DIR", py "data")].

(** The warning of [create_env_file] about the OpenAI key. *)
Definition sk_warning : str := py "⚠️  Warning: OpenAI key should start with 'sk-'".

(** The keys of the template, in the order of the template. *)
Definition documented_keys : list str :=
  [py "OPENAI_API_KEY"; py "ANTHROPIC_API_KEY"; py "GROQ_API_KEY";
   py "ALPACA_API_KEY"; py "ALPACA_SECRET_KEY";
   py "AI_PRIMARY_MODEL"; py "AI_BACKUP_MODEL"; py "AI_RESEARCH_MODEL";
   py "PAPER_TRADING"; py "STARTING_CASH"; py "MAX_POSITION_PCT";
   py "STOP_LOSS_PCT"; py "MAX_DAILY_LOSS";
   py "SLACK_WEBHOOK"; py "EMAIL_ALERTS"; py "EMAIL_FROM"; py "EMAIL_TO";
   py "EMAIL_PASSWORD";
   py "MARKET_CAP_MAX"; py "MIN_VOLUME"; py "TIMEZONE"; py "DATA_DIR"].

(** ** Sample worlds *)

Definition sample_host (c : list str → Child) : Host :=
  mkHost (3, 11) (py "3.11.4 (main)") (py "/usr/bin/python3")
    (Some (py "trader")) (py "/srv/bot") c (fun _ => py "error").

Definition all_succeed (_ : list str) : Child := Exits 1 0 [] [].

(** The operator answers the ten prompts of [create_env_file] and picks
    deployment option 1. *)
Definition sample_world : World :=
  mkWorld (sample_host all_succeed)
    (py "sk-abc
ant
gsk
 AK1 
SECRET
 500 
https://hooks.example/x
from@example.org
to@example.org
pw
1
")
    [] ∅ [].

(** Children told apart by their command line: the container engine, the
    package manager, the smoke test. *)
Definition sample_child (docker pip test : Child) (args : list str) : Child :=
  if str_eqb (nth 0 args []) (py "docker") then docker
  else if str_eqb (nth 1 args []) (py "-m") then pip
  else test.

Definition with_child (c : list str → Child) (w : World) : World :=
  mkWorld (sample_host c) (stdin w) (stdout w) (fs w) (spawned w).

(** The world a stage leaves. *)
Definition after (m : M unit) (w : World) : World := (m w).2.

(** The world once the configuration is written, and once the
    directories are made. *)
Definition configured (w : World) : World :=
  after create_env_file (after check_python_version (after print_banner w)).

Definition provisioned (w : World) : World :=
  after create_directories (after install_dependencies (configured w)).

(** The package manager exits with status 1. *)
Definition pip_fails_world : World :=
  with_child (sample_child (Exits 1 0 [] []) (Exits 12 1 [] (py "ERROR: No matching distribution"))
                (Exits 1 0 [] []))
    sample_world.

(** The smoke test exits with status 2; the operator then picks [9]. *)
Definition test_fails_world : World :=
  mkWorld (sample_host (sample_child (Exits 1 0 [] []) (Exits 12 0 [] [])
                          (Exits 3 2 [] (py "openai.AuthenticationError"))))
    (str_mul nl 10 ++ py " 9 " ++ nl) [] ∅ [].

(** The container engine is not installed; the operator picks [3]. *)
Definition docker_absent_world : World :=
  mkWorld (sample_host (sample_child (NoSpawn FileNotFoundError) (Exits 12 0 [] [])
                          (Exits 3 0 [] [])))
    (str_mul nl 10 ++ py "3" ++ nl) [] ∅ [].

(** The same on Python 3.8. *)
Definition python38_world : World :=
  mkWorld (mkHost (3, 8) (py "3.8.10 (default)") (py "/usr/bin/python3")
             (Some (py "trader")) (py "/srv/bot") all_succeed (fun _ => py "error"))
    (stdin sample_world) [] ∅ [].

(** The operator only presses return at the ten prompts. *)
Definition blank_world : World :=
  mkWorld (sample_host all_succeed) (str_mul nl 10) [] ∅ [].

(** ** Two readings that the code does not bear out *)

(** Every required key has a non-empty value in the document written by a
    run from [w]. *)
Definition required_keys_nonempty (w : World) : Prop :=
  ∀ w' doc,
    create_env_file w = (Ret tt, w') →
    fs w' !! py ".env" = Some (File doc) →
    ∀ k, In k [py "OPENAI_API_KEY"; py "ALPACA_API_KEY"; py "ALPACA_SECRET_KEY"] →
         ∃ v, value_of k doc = Some v ∧ v ≠ [].

(** The value of [STARTING_CASH] in the document written by a run from [w]
    is ["1000"] for an empty answer to the sixth prompt and the answer as
    typed otherwise. *)
Definition starting_cash_literal (w : World) : Prop :=
  ∀ answers rest w' doc,
    read_lines 10 (stdin w) = Some (answers, rest) →
    create_env_file w = (Ret tt, w') →
    fs w' !! py ".env" = Some (File doc) →
    value_of (py "STARTING_CASH") doc
      = Some (match nth 5 answers [] with
              | [] => py "1000"
              | c :: a => c :: a
              end).

(** ** Further worlds and readings *)

(** ** What [create_env_file] writes to the console *)

(** The lines and prompts of a run, by the OpenAI key as stripped. *)
Definition config_transcript (openai_key : str) : list Out :=
  [Printed (nl ++ py "🔑 API KEY SETUP");
   Printed (str_mul (py "=") 40);
   Prompted (py "Enter your OpenAI API key (sk-...): ")]
  ++ (if startswith openai_key (py "sk-") then [] else [Printed sk_warning])
  ++ [Prompted (py "Enter your Anthropic API key (optional, sk-ant-...): ");
      Prompted (py "Enter your Groq API key (optional, gsk-...): ");
      Prompted (py "Enter your Alpaca API key: ");
      Prompted (py "Enter your Alpaca Secret key: ");
      Printed (nl ++ py "💰 TRADING CONFIGURATION");
      Printed (str_mul (py "=") 40);
      Prompted (py "Starting capital (default: 1000): ");
      Printed (nl ++ py "📧 NOTIFICATIONS (Optional)");
      Printed (str_mul (py "=") 40);
      Prompted (py "Slack webhook URL (optional): ");
      Prompted (py "Email for notifications (optional): ");
      Prompted (py "Email to receive reports (optional): ");
      Prompted (py "Email app password (optional): ");
      Printed (py "✅ .env file created successfully")].

(** The prompts among what was written. *)
Definition prompts (o : list Out) : list str :=
  omap (λ x, match x with Prompted p => Some p | Printed _ => None end) o.

(** The input ends after the fourth answer. *)
Definition short_input_world : World :=
  mkWorld (sample_host all_succeed) (py "sk-abc
ant
gsk
AK1") [] (<[py "notes.txt" := File (py "keep")]> ∅) [].

(** An earlier document and another file are in place. *)
Definition rerun_world : World :=
  mkWorld (sample_host all_succeed) (stdin sample_world) []
    (<[py ".env" := File (py "OPENAI_API_KEY=old")]>
       (<[py "notes.txt" := File (py "keep")]> ∅)) [].

(** The container engine works; the operator picks [3]. *)
Definition docker_world : World :=
  mkWorld (sample_host all_succeed) (py "3" ++ nl) [] ∅ [].

(** The image cannot be built. *)
Definition docker_build_fails (args : list str) : Child :=
  if str_eqb (nth 1 args []) (py "build") then Exits 40 1 [] (py "no Dockerfile")
  else Exits 1 0 [] [].

(** The interpreter cannot start a child of its own. *)
Definition no_python_world : World :=
  mkWorld (sample_host (sample_child (Exits 1 0 [] []) (NoSpawn PermissionError)
                          (NoSpawn PermissionError)))
    [] [] ∅ [].

(** ** What [deploy_local] writes *)

(** The entries of the unit file, by user and working directory. *)
Definition service_entries (user cwd : str) : list (str * str) :=
  [(py "Description", py "Microcap Quant Trading Bot");
   (py "After", py "network.target");
   (py "Type", py "simple");
   (py "User", user);
   (py "WorkingDirectory", cwd);
   (py "Environment", py "PATH=" ++ cwd ++ py "/venv/bin");
   (py "ExecStart", cwd ++ py "/venv/bin/python -m auto_trader.automated_trader");
   (py "Restart", py "always");
   (py "RestartSec", py "10");
   (py "WantedBy", py "multi-user.target")].

(** No [USER] in the environment. *)
Definition no_user_world : World :=
  mkWorld (mkHost (3, 11) (py "3.11.4 (main)") (py "/usr/bin/python3")
             None (py "/srv/bot") all_succeed (fun _ => py "error"))
    (py "4" ++ nl) [] ∅ [].

(** What the dispatcher writes before it reads the choice. *)
Definition menu : list Out :=
  [Printed (nl ++ py "🚀 DEPLOYMENT OPTIONS");
   Printed (str_mul (py "=") 40);
   Printed (py "1. Railway (Recommended - Zero maintenance)");
   Printed (py "2. Render (Alternative cloud platform)");
   Printed (py "3. Local Docker");
   Printed (py "4. Local Python");
   Prompted (nl ++ py "Select deployment option (1-4): ")].

(** The world in which the chosen strategy starts. *)
Definition chosen (w : World) (rest : str) : World :=
  mkWorld (host w) rest (stdout w ++ menu) (fs w) (spawned w).

(** Nothing is left to read. *)
Definition blank_world_end : World :=
  mkWorld (sample_host all_succeed) [] [] ∅ [].

(** A regular file named [logs] is in the way. *)
Definition logs_taken_world : World :=
  mkWorld (sample_host all_succeed) [] []
    (<[py "logs" := File (py "old log")]> ∅) [].

(** No white space at either end, as [strip] leaves a string. *)
Definition trimmed (v : str) : Prop :=
  (∀ c t, v = c :: t → is_space c = false) ∧
  (∀ t c, v = t ++ [c] → is_space c = false).

(** The keys whose values [create_env_file] takes from the operator. *)
Definition prompted_keys : list str :=
  [py "OPENAI_API_KEY"; py "ANTHROPIC_API_KEY"; py "GROQ_API_KEY";
   py "ALPACA_API_KEY"; py "ALPACA_SECRET_KEY"; py "STARTING_CASH";
   py "SLACK_WEBHOOK"; py "EMAIL_FROM"; py "EMAIL_TO"; py "EMAIL_PASSWORD"].

(** ** Where a line ends

    Readers of a document do not agree on where a line ends: at a line
    feed only, as [lines] has it; at a carriage return as well, alone or
    before a line feed, as Python's text mode and the usual readers of
    such documents have it; at every line boundary of [str.splitlines].
    [brk] says which characters end a line; a carriage return right
    before a line feed ends one line with it, not two. *)

Definition CR : N := 13.

(** The line boundaries of [str.splitlines]. *)
Definition is_linebreak (c : N) : bool :=
  ((10 <=? c) && (c <=? 13) || (28 <=? c) && (c <=? 30)
   || (c =? 133) || (c =? 8232) || (c =? 8233))%N.

(** Line feed and carriage return: universal newlines. *)
Definition text_mode (c : N) : bool := ((c =? LF) || (c =? CR))%N.

(** A way to end lines that a reader may follow. *)
Definition line_ends (brk : N → bool) : Prop :=
  brk LF = true ∧ ∀ c, brk c = true → is_linebreak c = true.

Fixpoint lines_at (brk : N → bool) (s : str) : list str :=
  match s with
  | [] => [[]]
  | c :: s' =>
    if brk c then
      [] :: match s' with
            | c' :: s'' =>
              if ((c =? CR) && (c' =? LF))%N then lines_at brk s''
              else lines_at brk s'
            | [] => lines_at brk s'
            end
    else match lines_at brk s' with
         | l :: ls => (c :: l) :: ls
         | [] => [[c]]
         end
  end.

Definition entries_at (brk : N → bool) (doc : str) : list (str * str) :=
  omap entry (lines_at brk doc).


(** A character that is no line boundary, or is the line feed. *)
Definition lf_or_plain (c : N) : bool := negb (is_linebreak c) || (c =? LF)%N.

(** A text that holds no line boundary. *)
Definition no_linebreak (s : str) : bool :=
  forallb (fun c => negb (is_linebreak c)) s.




(** ** Two more readings that the code does not bear out *)



(** ** The text of a timeout *)

(** [s] holds [sub]. *)
Fixpoint contains (s sub : str) : bool :=
  startswith s sub ||
  match s with
  | [] => false
  | _ :: s' => contains s' sub
  end.

Fixpoint str_join (sep : str) (l : list str) : str :=
  match l with
  | [] => []
  | [x] => x
  | x :: l' => x ++ sep ++ str_join sep l'
  end.

(** [str(cmd)] of a list of strings that hold no quote, no backslash and
    nothing unprintable: each in single quotes. *)
Definition str_of_args (cmd : list str) : str :=
  py "[" ++ str_join (py ", ") (map (fun a => py "'" ++ a ++ py "'") cmd) ++ py "]".

(** [str(e)] of [subprocess.TimeoutExpired]: the command and the limit,
    nothing of what the child wrote. *)
Definition timeout_text (cmd : list str) (timeout : N) : str :=
  py "Command '" ++ str_of_args cmd ++ py "' timed out after "
  ++ str_of_Z (Z.of_N timeout) ++ py " seconds".

(** The smoke test hangs after writing to its error output; the operator
    then picks [1]. *)
Definition slow_test_world : World :=
  mkWorld
    (mkHost (3, 11) (py "3.11.4 (main)") (py "/usr/bin/python3")
       (Some (py "trader")) (py "/srv/bot")
       (sample_child (Exits 1 0 [] []) (Exits 12 0 [] [])
          (Exits 61 0 [] (py "Connecting to api.openai.com")))
       (fun e => match e with
                 | TimeoutExpired cmd t _ _ => timeout_text cmd t
                 | _ => py "error"
                 end))
    (str_mul nl 10 ++ py "1" ++ nl) [] ∅ [].

(** A failed smoke test shows what its child wrote to the error output:
    some line printed by [run_tests] holds it. *)
Definition failure_text_surfaced (w : World) : Prop :=
  ∀ el rc out err,
    child (host w) (smoke_test (sys_executable (host w))) = Exits el rc out err →
    rc ≠ 0 ∨ (60 < el)%N →
    ∃ w' l,
      run_tests w = (Ret tt, w') ∧
      In (Printed l) (stdout w') ∧ contains l err = true.

(** ** Children started one after the other *)

(** A child that ran and exited with status 0. *)
Definition succeeded (c : Child) : bool :=
  match c with
  | Exits _ rc _ _ => rc =? 0
  | NoSpawn _ => false
  end.

(** The commands of [cmds] that are started when each is started only
    once the one before it has succeeded: all up to the first that fails,
    that one included. *)
Fixpoint upto_first_failure (h : Host) (cmds : list (list str))
  : list (list str) :=
  match cmds with
  | [] => []
  | c :: cs => c :: (if succeeded (child h c) then upto_first_failure h cs else [])
  end.

(** A directory stands where the document goes. *)
Definition env_dir_world : World :=
  mkWorld (sample_host all_succeed) (str_mul nl 10 ++ py "1" ++ nl) []
    (<[py ".env" := Dir]> ∅) [].

(** * Properties *)

(** ** Text *)

Lemma readline_LF_free s : LF_free (readline s).1.
Proof.
  induction s as [|c s IH]; simpl; [constructor|].
  destruct (N.eqb_spec c LF) as [->|Hc]; [constructor|].
  destruct (readline s) as [l r]; simpl in *. by constructor.
Qed.

Lemma lstrip_LF_free s : LF_free s → LF_free (lstrip s).
Proof.
  induction 1 as [|c s Hc Hs IH]; simpl; [constructor|].
  destruct (is_space c); [done | by constructor].
Qed.

Lemma strip_LF_free s : LF_free s → LF_free (strip s).
Proof.
  intros H. unfold strip, rstrip, LF_free.
  apply Forall_rev, lstrip_LF_free, Forall_rev. by apply lstrip_LF_free.
Qed.

Lemma str_or_LF_free a b : LF_free a → LF_free b → LF_free (str_or a b).
Proof. by destruct a. Qed.

Lemma str_eqb_eq s t : str_eqb s t = true ↔ s = t.
Proof.
  revert t; induction s as [|c s IH]; intros [|d t]; simpl; try done.
  rewrite andb_true_iff, IH, N.eqb_eq. split; [by intros [-> ->] | by intros [= -> ->]].
Qed.

(** ** Lines of a concatenation *)

Lemma lines_nonempty s : lines s ≠ [].
Proof.
  destruct s as [|c s]; simpl; [done|].
  destruct (c =? LF)%N; [done|]. by destruct (lines s).
Qed.

Lemma lines_app a b : lines (a ++ b) = cat_lines (lines a) (lines b).
Proof.
  induction a as [|c a IH]; simpl.
  - pose proof (lines_nonempty b). by destruct (lines b).
  - rewrite IH. pose proof (lines_nonempty a) as Ha.
    pose proof (lines_nonempty b) as Hb.
    destruct (c =? LF)%N.
    + by destruct (lines a).
    + destruct (lines a) as [|l [|l' ls]]; [done| |done].
      simpl. by destruct (lines b).
Qed.

Lemma lines_LF_free v : LF_free v → lines v = [v].
Proof.
  induction 1 as [|c v Hc Hv IH]; simpl; [done|].
  apply N.eqb_neq in Hc. by rewrite Hc, IH.
Qed.

Lemma cat_lines_nonempty xs ys : xs ≠ [] → cat_lines xs ys ≠ [].
Proof. destruct xs as [|x [|x' xs]]; simpl; [done| |done]. by destruct ys. Qed.

Lemma sym_lines_nonempty ps kw : sym_lines ps kw ≠ [].
Proof.
  destruct ps as [|[lit f] ps]; simpl; [done|].
  apply cat_lines_nonempty, lines_nonempty.
Qed.

Lemma join_field_cat v rest : rest ≠ [] → join_field v rest = cat_lines [v] rest.
Proof.
  destruct rest as [|[|c y] ys]; simpl; [done| |done].
  by rewrite app_nil_r.
Qed.

Lemma lines_vformat ps kw doc :
  Forall (fun kv => LF_free kv.2) kw →
  vformat ps kw = inr doc → lines doc = sym_lines ps kw.
Proof.
  intros Hkw. revert doc.
  induction ps as [|[lit [name|]] ps IH]; intros doc; simpl.
  - by intros [= <-].
  - destruct (kw_get name kw) as [v|] eqn:Hv; [|done].
    destruct (vformat ps kw) as [e|r]; [done|]. intros [= <-].
    assert (LF_free v) as Hfree.
    { clear -Hkw Hv. induction Hkw as [|[k u] kw Hu _ IHkw]; simpl in Hv; [done|].
      destruct (str_eqb k name); [by injection Hv as <-|auto]. }
    rewrite !lines_app, (IH r eq_refl), (lines_LF_free v Hfree).
    by rewrite join_field_cat by apply sym_lines_nonempty.
  - destruct (vformat ps kw) as [e|r]; [done|]. intros [= <-].
    by rewrite lines_app, (IH r eq_refl).
Qed.

Lemma entries_format template ps kw doc :
  formatter_parser template = Some ps →
  Forall (fun kv => LF_free kv.2) kw →
  format template kw = inr doc →
  entries doc = omap entry (sym_lines ps kw).
Proof.
  intros Hps Hkw. unfold format, entries. rewrite Hps. intros Hdoc.
  by rewrite (lines_vformat ps kw doc).
Qed.

(** ** Running the monad *)

Lemma runs_bind {A B} (m : M A) (f : A → M B) w a w1 b w2 :
  runs m w a w1 → runs (f a) w1 b w2 → runs (m ≫= f) w b w2.
Proof. unfold runs, mbind, M_bind. by intros ->. Qed.

Lemma runs_ret {A} (a : A) w : runs (mret a) w a w.
Proof. done. Qed.

Lemma runs_print s w : runs (print s) w tt (set_stdout (stdout w ++ [Printed s]) w).
Proof. done. Qed.

Lemma runs_ask {A} (f : Host → A) w : runs (ask f) w (f (host w)) w.
Proof. done. Qed.

Lemma runs_input p w l r :
  read1 (stdin w) = Some (l, r) →
  runs (input p) w l (set_stdin r (set_stdout (stdout w ++ [Prompted p]) w)).
Proof.
  unfold runs, input, read1. destruct (stdin w) as [|c s]; [done|].
  generalize (readline (c :: s)). by intros [l' r'] [= -> ->].
Qed.

Lemma runs_lift_exc {A} (a : A) w : runs (lift_exc (inr a)) w a w.
Proof. done. Qed.

Lemma runs_write_file p c w :
  fs w !! p ≠ Some Dir → dirname p = None →
  runs (write_file p c) w tt (set_fs (<[p := File c]> (fs w)) w).
Proof.
  unfold runs, write_file, parent_check. intros Hp ->.
  by destruct (fs w !! p) as [[|?]|].
Qed.

Ltac run_prim :=
  lazymatch goal with
  | |- runs (print _) _ _ _ => apply runs_print
  | |- runs (mret _) _ _ _ => apply runs_ret
  | |- runs (ask _) _ _ _ => apply runs_ask
  | |- runs (input _) _ _ _ => eapply runs_input; eassumption
  | |- runs (lift_exc (inr _)) _ _ _ => apply runs_lift_exc
  | |- runs (write_file _ _) _ _ _ =>
    apply runs_write_file; [eassumption | by vm_compute]
  | |- runs (if negb ?c then _ else _) _ _ _ =>
    match goal with H : c = _ |- _ => rewrite H end; cbn [negb]; run_prim
  end.

(** The worlds met along a run are kept in constructor form. *)
Ltac world_norm :=
  cbv beta iota zeta delta
    [host stdin stdout fs spawned set_stdin set_stdout set_fs set_spawned].

Ltac run_step :=
  lazymatch goal with
  | |- runs (_ ≫= _) _ _ _ =>
    eapply runs_bind; [run_prim | cbv beta zeta; world_norm]
  | |- _ => run_prim
  end.

(** ** The configuration document *)

Lemma env_template_entries v1 v2 v3 v4 v5 v6 v7 v8 v9 v10 :
  Forall LF_free [v1; v2; v3; v4; v5; v6; v7; v8; v9; v10] →
  ∃ doc,
    format env_template (env_kwargs v1 v2 v3 v4 v5 v6 v7 v8 v9 v10) = inr doc ∧
    entries doc = env_entries v1 v2 v3 v4 v5 v6 v7 v8 v9 v10.
Proof.
  intros Hv.
  assert (∃ doc, format env_template
            (env_kwargs v1 v2 v3 v4 v5 v6 v7 v8 v9 v10) = inr doc) as [doc Hdoc].
  { eexists. vm_compute. reflexivity. }
  exists doc. split; [exact Hdoc|].
  assert (Forall (λ kv, LF_free kv.2)
            (env_kwargs v1 v2 v3 v4 v5 v6 v7 v8 v9 v10)) as Hkw.
  { unfold env_kwargs. repeat (apply Forall_cons_1 in Hv as [? Hv]).
    repeat (constructor; [assumption|]). constructor. }
  destruct (formatter_parser env_template) as [ps|] eqn:Hps;
    [|vm_compute in Hps; discriminate Hps].
  rewrite (entries_format _ ps _ _ Hps Hkw Hdoc).
  vm_compute in Hps. injection Hps as <-. vm_compute. reflexivity.
Qed.

Lemma read_lines_S n s l ls r' :
  read_lines (S n) s = Some (l :: ls, r') →
  ∃ r, read1 s = Some (l, r) ∧ read_lines n r = Some (ls, r').
Proof.
  simpl. destruct (read1 s) as [[l0 r]|]; [|done].
  destruct (read_lines n r) as [[ls0 r0]|] eqn:Hr; [|done].
  intros [= -> -> ->]. by exists r.
Qed.

Lemma read1_LF_free s l r : read1 s = Some (l, r) → LF_free l.
Proof.
  unfold read1. destruct s as [|c s]; [done|].
  pose proof (readline_LF_free (c :: s)) as Hl.
  destruct (readline (c :: s)) as [l' r']. by intros [= <- <-].
Qed.

Lemma LF_free_nil : LF_free [].
Proof. constructor. Qed.

Lemma LF_free_1000 : LF_free (py "1000").
Proof. vm_compute. by repeat constructor. Qed.

Create HintDb lf_free.
#[local] Hint Resolve strip_LF_free str_or_LF_free read1_LF_free LF_free_nil
  LF_free_1000 : lf_free.

Lemma str_or_nil s : str_or s [] = s.
Proof. by destruct s. Qed.

Ltac as_runs :=
  lazymatch goal with
  | |- ?m ?w = (Ret ?a, ?w') => change (runs m w a w')
  end.

Lemma create_env_file_run w a1 a2 a3 a4 a5 a6 a7 a8 a9 a10 rest :
  read_lines 10 (stdin w)
    = Some ([a1; a2; a3; a4; a5; a6; a7; a8; a9; a10], rest) →
  fs w !! py ".env" ≠ Some Dir →
  ∃ w' doc new,
    create_env_file w = (Ret tt, w') ∧
    host w' = host w ∧ stdin w' = rest ∧ spawned w' = spawned w ∧
    stdout w' = stdout w ++ new ∧
    (startswith (strip a1) (py "sk-") = false → In (Printed sk_warning) new) ∧
    fs w' = <[py ".env" := File doc]> (fs w) ∧
    entries doc =
      env_entries (strip a1) (strip a2) (strip a3) (strip a4) (strip a5)
        (str_or (strip a6) (py "1000"))
        (strip a7) (strip a8) (strip a9) (strip a10).
Proof.
  destruct w as [h i o f s]; world_norm. intros Hin Henv.
  apply read_lines_S in Hin as (r1 & H1 & Hin).
  apply read_lines_S in Hin as (r2 & H2 & Hin).
  apply read_lines_S in Hin as (r3 & H3 & Hin).
  apply read_lines_S in Hin as (r4 & H4 & Hin).
  apply read_lines_S in Hin as (r5 & H5 & Hin).
  apply read_lines_S in Hin as (r6 & H6 & Hin).
  apply read_lines_S in Hin as (r7 & H7 & Hin).
  apply read_lines_S in Hin as (r8 & H8 & Hin).
  apply read_lines_S in Hin as (r9 & H9 & Hin).
  apply read_lines_S in Hin as (r10 & H10 & Hin).
  injection Hin as ->.
  destruct (env_template_entries (strip a1) (strip a2) (strip a3) (strip a4)
              (strip a5) (str_or (strip a6) (py "1000"))
              (str_or (strip a7) []) (str_or (strip a8) [])
              (str_or (strip a9) []) (str_or (strip a10) []))
    as (doc & Hdoc & Hentries).
  { repeat (apply List.Forall_cons;
              [solve [eauto with lf_free]|]).
    constructor. }
  rewrite !str_or_nil in Hentries. unfold env_kwargs in Hdoc.
  destruct (startswith (strip a1) (py "sk-")) eqn:Hsk.
  - eexists _, doc, _. split.
    { as_runs. unfold create_env_file. repeat run_step.
      rewrite Hdoc. repeat run_step. }
    world_norm. rewrite <- !app_assoc.
    do 4 (split; [reflexivity|]).
    split; [congruence | split; [reflexivity | exact Hentries]].
  - eexists _, doc, _. split.
    { as_runs. unfold create_env_file. repeat run_step.
      rewrite Hdoc. repeat run_step. }
    world_norm. rewrite <- !app_assoc.
    do 4 (split; [reflexivity|]).
    split; [|split; [reflexivity | exact Hentries]].
    intros _. do 3 (apply in_or_app; right). apply in_or_app; left.
    unfold sk_warning. apply in_eq.
Qed.

Lemma env_entries_values v1 v2 v3 v4 v5 v6 v7 v8 v9 v10 :
  let E := env_entries v1 v2 v3 v4 v5 v6 v7 v8 v9 v10 in
  E.*1 = documented_keys ∧
  kw_get (py "OPENAI_API_KEY") E = Some v1 ∧
  kw_get (py "ALPACA_API_KEY") E = Some v4 ∧
  kw_get (py "ALPACA_SECRET_KEY") E = Some v5 ∧
  kw_get (py "STARTING_CASH") E = Some v6 ∧
  kw_get (py "AI_PRIMARY_MODEL") E = Some (py "gpt-4o") ∧
  kw_get (py "AI_BACKUP_MODEL") E = Some (py "gpt-4") ∧
  kw_get (py "AI_RESEARCH_MODEL") E = Some (py "o3-deep-research-2025-06-26") ∧
  kw_get (py "PAPER_TRADING") E = Some (py "true") ∧
  kw_get (py "MAX_POSITION_PCT") E = Some (py "0.15") ∧
  kw_get (py "STOP_LOSS_PCT") E = Some (py "0.15") ∧
  kw_get (py "MAX_DAILY_LOSS") E = Some (py "0.05") ∧
  kw_get (py "EMAIL_ALERTS") E = Some (py "false") ∧
  kw_get (py "MARKET_CAP_MAX") E = Some (py "300000000") ∧
  kw_get (py "MIN_VOLUME") E = Some (py "50000") ∧
  kw_get (py "TIMEZONE") E = Some (py "US/Eastern") ∧
  kw_get (py "DATA_DIR") E = Some (py "data").
Proof. vm_compute. repeat split. Qed.


(** What a finished run of [create_env_file] leaves, in the terms the
    claims use. *)
Lemma create_env_file_document w a1 a2 a3 a4 a5 a6 a7 a8 a9 a10 rest :
  read_lines 10 (stdin w)
    = Some ([a1; a2; a3; a4; a5; a6; a7; a8; a9; a10], rest) →
  fs w !! py ".env" ≠ Some Dir →
  ∃ w' doc new,
    create_env_file w = (Ret tt, w') ∧
    fs w' !! py ".env" = Some (File doc) ∧
    stdout w' = stdout w ++ new ∧
    (startswith (strip a1) (py "sk-") = false → In (Printed sk_warning) new) ∧
    entries doc =
      env_entries (strip a1) (strip a2) (strip a3) (strip a4) (strip a5)
        (str_or (strip a6) (py "1000"))
        (strip a7) (strip a8) (strip a9) (strip a10).
Proof.
  intros Hin Henv.
  destruct (create_env_file_run w _ _ _ _ _ _ _ _ _ _ _ Hin Henv)
    as (w' & doc & new & Hrun & _ & _ & _ & Hout & Hwarn & Hfs & Hentries).
  exists w', doc, new. rewrite Hfs, lookup_insert_eq. auto.
Qed.

(** ** Runs of [create_env_file] that do not return *)

Lemma input_eof p w :
  read1 (stdin w) = None →
  input p w = (Raise EOFError, set_stdout (stdout w ++ [Prompted p]) w).
Proof. unfold read1, input. by destruct (stdin w). Qed.

Lemma write_file_on_dir p c w :
  fs w !! p = Some Dir → write_file p c w = (Raise (OSError IsADirectoryError), w).
Proof. unfold write_file. by intros ->. Qed.

Lemma raises_bind {A B} (m : M A) (f : A → M B) w a w1 e :
  runs m w a w1 → (f a w1).1 = Raise e → ((m ≫= f) w).1 = Raise e.
Proof. unfold runs, mbind, M_bind. by intros ->. Qed.

Lemma raises_now {A B} (m : M A) (f : A → M B) w e w1 :
  m w = (Raise e, w1) → ((m ≫= f) w).1 = Raise e.
Proof. unfold mbind, M_bind. by intros ->. Qed.

Ltac run_to_raise :=
  repeat (eapply raises_bind; [run_prim | cbv beta zeta; world_norm]);
  eapply raises_now;
  first [ apply input_eof; eassumption
        | apply write_file_on_dir; eassumption ].

Lemma create_env_file_eof w :
  read_lines 10 (stdin w) = None → (create_env_file w).1 = Raise EOFError.
Proof.
  destruct w as [h i o f s]. cbn [stdin]. unfold create_env_file.
  intros Hin. cbn [read_lines] in Hin.
  destruct (read1 i) as [[a1 r1]|] eqn:H1; [|run_to_raise].
  destruct (startswith (strip a1) (py "sk-")) eqn:Hsk;
  (destruct (read1 r1) as [[a2 r2]|] eqn:H2; [|run_to_raise];
   destruct (read1 r2) as [[a3 r3]|] eqn:H3; [|run_to_raise];
   destruct (read1 r3) as [[a4 r4]|] eqn:H4; [|run_to_raise];
   destruct (read1 r4) as [[a5 r5]|] eqn:H5; [|run_to_raise];
   destruct (read1 r5) as [[a6 r6]|] eqn:H6; [|run_to_raise];
   destruct (read1 r6) as [[a7 r7]|] eqn:H7; [|run_to_raise];
   destruct (read1 r7) as [[a8 r8]|] eqn:H8; [|run_to_raise];
   destruct (read1 r8) as [[a9 r9]|] eqn:H9; [|run_to_raise];
   destruct (read1 r9) as [[a10 r10]|] eqn:H10; [|run_to_raise];
   discriminate Hin).
Qed.

Lemma read_lines_length n s ls r :
  read_lines n s = Some (ls, r) → length ls = n.
Proof.
  revert s ls r. induction n as [|n IH]; intros s ls r; simpl.
  - by intros [= <- _].
  - destruct (read1 s) as [[l r1]|]; [|done].
    destruct (read_lines n r1) as [[ls1 r2]|] eqn:E; [|done].
    intros [= <- _]. simpl. f_equal. by eapply IH.
Qed.

(** A run of [create_env_file] that returns has read ten answers and has
    not found a directory in the place of the document: the runs the
    claims on the document speak of are all the runs that write it. *)
Lemma create_env_file_returns_inv w w' :
  create_env_file w = (Ret tt, w') →
  ∃ a1 a2 a3 a4 a5 a6 a7 a8 a9 a10 rest,
    read_lines 10 (stdin w)
      = Some ([a1; a2; a3; a4; a5; a6; a7; a8; a9; a10], rest) ∧
    fs w !! py ".env" ≠ Some Dir.
Proof.
  intros Hrun.
  destruct (read_lines 10 (stdin w)) as [[ls rest]|] eqn:Hin.
  - pose proof (read_lines_length _ _ _ _ Hin) as Hlen.
    do 10 (destruct ls as [|? ls]; [discriminate Hlen|]).
    destruct ls; [|discriminate Hlen].
    do 11 eexists. split; [reflexivity|].
    intros Hdir.
    assert ((create_env_file w).1 = Raise (OSError IsADirectoryError)) as Hraise;
      [|rewrite Hrun in Hraise; discriminate Hraise].
    clear Hrun Hlen. destruct w as [h i o f s]. cbn [stdin fs] in *.
    do 10 (apply read_lines_S in Hin as (? & ? & Hin)). injection Hin as ->.
    destruct (env_template_entries (strip l) (strip l0) (strip l1) (strip l2)
                (strip l3) (str_or (strip l4) (py "1000"))
                (str_or (strip l5) []) (str_or (strip l6) [])
                (str_or (strip l7) []) (str_or (strip l8) []))
      as (doc & Hdoc & _).
    { repeat (apply List.Forall_cons;
                [solve [eauto with lf_free]|]).
      constructor. }
    unfold env_kwargs in Hdoc. unfold create_env_file.
    destruct (startswith (strip l) (py "sk-")) eqn:Hsk.
    + repeat (eapply raises_bind; [run_prim | cbv beta zeta; world_norm]).
      rewrite Hdoc. run_to_raise.
    + repeat (eapply raises_bind; [run_prim | cbv beta zeta; world_norm]).
      rewrite Hdoc. run_to_raise.
  - apply create_env_file_eof in Hin. rewrite Hrun in Hin. discriminate Hin.
Qed.

(** ** The run of [create_env_file], in full *)

Lemma ends_bind {A B} (m : M A) (f : A → M B) w a w1 r w2 :
  runs m w a w1 → f a w1 = (r, w2) → (m ≫= f) w = (r, w2).
Proof. unfold runs, mbind, M_bind. by intros ->. Qed.

Lemma runs_to {A} (m : M A) w a w1 w2 :
  runs m w a w1 → w1 = w2 → m w = (Ret a, w2).
Proof. by intros H <-. Qed.

(** The run of [create_env_file] on ten answers, in full. *)
Lemma create_env_file_effect w a1 a2 a3 a4 a5 a6 a7 a8 a9 a10 rest :
  read_lines 10 (stdin w)
    = Some ([a1; a2; a3; a4; a5; a6; a7; a8; a9; a10], rest) →
  fs w !! py ".env" ≠ Some Dir →
  ∃ doc,
    format env_template
      (env_kwargs (strip a1) (strip a2) (strip a3) (strip a4) (strip a5)
         (str_or (strip a6) (py "1000"))
         (strip a7) (strip a8) (strip a9) (strip a10)) = inr doc ∧
    entries doc =
      env_entries (strip a1) (strip a2) (strip a3) (strip a4) (strip a5)
        (str_or (strip a6) (py "1000"))
        (strip a7) (strip a8) (strip a9) (strip a10) ∧
    create_env_file w =
      (Ret tt,
       mkWorld (host w) rest (stdout w ++ config_transcript (strip a1))
         (<[py ".env" := File doc]> (fs w)) (spawned w)).
Proof.
  destruct w as [h i o f s]; world_norm. intros Hin Henv.
  do 10 (apply read_lines_S in Hin as (? & ? & Hin)). injection Hin as ->.
  destruct (env_template_entries (strip a1) (strip a2) (strip a3) (strip a4)
              (strip a5) (str_or (strip a6) (py "1000"))
              (str_or (strip a7) []) (str_or (strip a8) [])
              (str_or (strip a9) []) (str_or (strip a10) []))
    as (doc & Hdoc & Hentries).
  { repeat (apply List.Forall_cons;
              [solve [eauto using strip_LF_free, str_or_LF_free, read1_LF_free,
                        LF_free_nil, LF_free_1000]|]).
    constructor. }
  exists doc. rewrite !str_or_nil in Hentries.
  split; [by rewrite !str_or_nil in Hdoc|]. split; [exact Hentries|].
  unfold env_kwargs in Hdoc. unfold config_transcript, sk_warning.
  destruct (startswith (strip a1) (py "sk-")) eqn:Hsk.
  - eapply runs_to.
    + unfold create_env_file. repeat run_step. rewrite Hdoc. repeat run_step.
    + world_norm. by rewrite <- !app_assoc.
  - eapply runs_to.
    + unfold create_env_file. repeat run_step. rewrite Hdoc. repeat run_step.
    + world_norm. by rewrite <- !app_assoc.
Qed.

(** * The claims about the configuration document *)

(** The operator gives the ten answers [a1] to [a10] and no directory
    stands in the place of the document.  By [create_env_file_returns_inv]
    these are all the runs in which the document is written. *)
Section ConfigCollection.

Variable w : World.
Variables a1 a2 a3 a4 a5 a6 a7 a8 a9 a10 rest : str.

Hypothesis answers :
  read_lines 10 (stdin w)
    = Some ([a1; a2; a3; a4; a5; a6; a7; a8; a9; a10], rest).
Hypothesis no_directory : fs w !! py ".env" ≠ Some Dir.

(** What the run leaves, and the entries of the document by key. *)
Lemma config_run :
  ∃ w' doc new,
    create_env_file w = (Ret tt, w') ∧
    fs w' !! py ".env" = Some (File doc) ∧
    stdout w' = stdout w ++ new ∧
    (startswith (strip a1) (py "sk-") = false → In (Printed sk_warning) new) ∧
    keys doc = documented_keys ∧
    value_of (py "OPENAI_API_KEY") doc = Some (strip a1) ∧
    value_of (py "ALPACA_API_KEY") doc = Some (strip a4) ∧
    value_of (py "ALPACA_SECRET_KEY") doc = Some (strip a5) ∧
    value_of (py "STARTING_CASH") doc = Some (str_or (strip a6) (py "1000")) ∧
    value_of (py "AI_PRIMARY_MODEL") doc = Some (py "gpt-4o") ∧
    value_of (py "AI_BACKUP_MODEL") doc = Some (py "gpt-4") ∧
    value_of (py "AI_RESEARCH_MODEL") doc = Some (py "o3-deep-research-2025-06-26") ∧
    value_of (py "PAPER_TRADING") doc = Some (py "true") ∧
    value_of (py "MAX_POSITION_PCT") doc = Some (py "0.15") ∧
    value_of (py "STOP_LOSS_PCT") doc = Some (py "0.15") ∧
    value_of (py "MAX_DAILY_LOSS") doc = Some (py "0.05") ∧
    value_of (py "EMAIL_ALERTS") doc = Some (py "false") ∧
    value_of (py "MARKET_CAP_MAX") doc = Some (py "300000000") ∧
    value_of (py "MIN_VOLUME") doc = Some (py "50000") ∧
    value_of (py "TIMEZONE") doc = Some (py "US/Eastern") ∧
    value_of (py "DATA_DIR") doc = Some (py "data").
Proof.
  destruct (create_env_file_document w _ _ _ _ _ _ _ _ _ _ _ answers no_directory)
    as (w' & doc & new & Hrun & Hfile & Hout & Hwarn & Hentries).
  exists w', doc, new. unfold value_of, keys. rewrite Hentries.
  do 4 (split; [assumption|]).
  exact (env_entries_values (strip a1) (strip a2) (strip a3) (strip a4)
           (strip a5) (str_or (strip a6) (py "1000")) (strip a7) (strip a8)
           (strip a9) (strip a10)).
Qed.

(** C1, as the code has it: in every run of [create_env_file] that gets
    its ten answers, the document is written and the value of each required
    key ([OPENAI_API_KEY], [ALPACA_API_KEY], [ALPACA_SECRET_KEY]) is the
    operator's answer with surrounding whitespace stripped, whatever the
    answer is; an OpenAI key that does not start with [sk-] adds the
    warning to the output and the run goes on all the same. *)
Theorem required_keys_are_stripped_answers :
  ∃ w' doc new,
    create_env_file w = (Ret tt, w') ∧
    fs w' !! py ".env" = Some (File doc) ∧
    value_of (py "OPENAI_API_KEY") doc = Some (strip a1) ∧
    value_of (py "ALPACA_API_KEY") doc = Some (strip a4) ∧
    value_of (py "ALPACA_SECRET_KEY") doc = Some (strip a5) ∧
    stdout w' = stdout w ++ new ∧
    (startswith (strip a1) (py "sk-") = false → In (Printed sk_warning) new).
Proof.
  destruct config_run
    as (w' & doc & new & Hrun & Hfile & Hout & Hwarn & _ & E1 & E4 & E5 & _).
  exists w', doc, new. auto 10.
Qed.

(** C5, as the code has it: the value of [STARTING_CASH] is ["1000"] when
    the answer to the sixth prompt is empty once surrounding whitespace is
    stripped, and the stripped answer otherwise. *)
Theorem starting_cash_default_or_stripped :
  ∃ w' doc,
    create_env_file w = (Ret tt, w') ∧
    fs w' !! py ".env" = Some (File doc) ∧
    value_of (py "STARTING_CASH") doc
      = Some (match strip a6 with
              | [] => py "1000"
              | c :: a => c :: a
              end).
Proof.
  destruct config_run
    as (w' & doc & new & Hrun & Hfile & _ & _ & _ & _ & _ & _ & E6 & _).
  exists w', doc. rewrite E6. unfold str_or. by destruct (strip a6).
Qed.

End ConfigCollection.

(** ** The claims at sample answers *)

Lemma required_keys_are_stripped_answers_witness :
  ∃ w' doc new,
    create_env_file sample_world = (Ret tt, w') ∧
    fs w' !! py ".env" = Some (File doc) ∧
    value_of (py "OPENAI_API_KEY") doc = Some (strip (py "sk-abc")) ∧
    value_of (py "ALPACA_API_KEY") doc = Some (strip (py " AK1 ")) ∧
    value_of (py "ALPACA_SECRET_KEY") doc = Some (strip (py "SECRET")) ∧
    stdout w' = stdout sample_world ++ new ∧
    (startswith (strip (py "sk-abc")) (py "sk-") = false →
     In (Printed sk_warning) new).
Proof.
  apply (required_keys_are_stripped_answers sample_world
           (py "sk-abc") (py "ant") (py "gsk") (py " AK1 ") (py "SECRET")
           (py " 500 ") (py "https://hooks.example/x")
           (py "from@example.org") (py "to@example.org") (py "pw")
           (py "1" ++ nl)).
  - vm_compute. reflexivity.
  - vm_compute. discriminate.
Defined.

Lemma starting_cash_default_or_stripped_witness :
  ∃ w' doc,
    create_env_file sample_world = (Ret tt, w') ∧
    fs w' !! py ".env" = Some (File doc) ∧
    value_of (py "STARTING_CASH") doc
      = Some (match strip (py " 500 ") with
              | [] => py "1000"
              | c :: a => c :: a
              end).
Proof.
  apply (starting_cash_default_or_stripped sample_world
           (py "sk-abc") (py "ant") (py "gsk") (py " AK1 ") (py "SECRET")
           (py " 500 ") (py "https://hooks.example/x")
           (py "from@example.org") (py "to@example.org") (py "pw")
           (py "1" ++ nl)).
  - vm_compute. reflexivity.
  - vm_compute. discriminate.
Defined.

(** ** Where the code departs from the words of the claims *)

(** C1 as stated fails: with blank answers the document is written and
    the required keys have the empty value. *)
Lemma required_key_can_be_empty : ¬ required_keys_nonempty blank_world.
Proof.
  intros Hclaim.
  destruct (create_env_file_document blank_world [] [] [] [] [] [] [] [] [] [] [])
    as (w' & doc & new & Hrun & Hfile & _ & _ & Hentries).
  { vm_compute. reflexivity. }
  { vm_compute. discriminate. }
  destruct (Hclaim w' doc Hrun Hfile (py "OPENAI_API_KEY")) as (v & Hv & Hne).
  { left. reflexivity. }
  unfold value_of in Hv. rewrite Hentries in Hv. vm_compute in Hv.
  injection Hv as <-. by apply Hne.
Qed.

(** C5 as stated fails: the answer [" 500 "] is not empty and is written
    as ["500"], not as typed. *)
Lemma starting_cash_not_literal : ¬ starting_cash_literal sample_world.
Proof.
  intros Hclaim.
  destruct (create_env_file_document sample_world
           (py "sk-abc") (py "ant") (py "gsk") (py " AK1 ") (py "SECRET")
           (py " 500 ") (py "https://hooks.example/x")
           (py "from@example.org") (py "to@example.org") (py "pw")
           (py "1" ++ nl))
    as (w' & doc & new & Hrun & Hfile & _ & _ & Hentries).
  { vm_compute. reflexivity. }
  { vm_compute. discriminate. }
  assert (read_lines 10 (stdin sample_world)
          = Some ([py "sk-abc"; py "ant"; py "gsk"; py " AK1 "; py "SECRET";
                   py " 500 "; py "https://hooks.example/x";
                   py "from@example.org"; py "to@example.org"; py "pw"],
                  py "1" ++ nl)) as Hin by (vm_compute; reflexivity).
  specialize (Hclaim _ _ w' doc Hin Hrun Hfile).
  unfold value_of in Hclaim. rewrite Hentries in Hclaim.
  vm_compute in Hclaim. discriminate Hclaim.
Qed.

(** ** Lines under other conventions *)

Lemma lines_at_lines brk s :
  Forall (fun c => brk c = (c =? LF)%N) s → lines_at brk s = lines s.
Proof.
  induction 1 as [|c s Hc _ IH]; [done|]. cbn [lines_at lines].
  rewrite Hc, IH. destruct (c =? LF)%N eqn:E; [|done].
  apply N.eqb_eq in E. subst c. by destruct s.
Qed.

(** A text whose only line boundaries are line feeds has the same lines
    for every reader. *)
Lemma lines_at_lf_only brk s :
  line_ends brk → forallb lf_or_plain s = true → lines_at brk s = lines s.
Proof.
  intros [Hlf Hbrk] Hs. apply lines_at_lines.
  induction s as [|c s IH]; [constructor|].
  cbn [forallb] in Hs. apply andb_true_iff in Hs as [Hc Hs].
  constructor; [|by apply IH]. unfold lf_or_plain in Hc.
  destruct (c =? LF)%N eqn:E.
  - apply N.eqb_eq in E. by subst c.
  - rewrite orb_false_r in Hc. apply negb_true_iff in Hc.
    destruct (brk c) eqn:B; [|done]. apply Hbrk in B. congruence.
Qed.

Lemma kw_get_forallb (f : N → bool) name kw v :
  forallb (fun kv => forallb f kv.2) kw = true →
  kw_get name kw = Some v → forallb f v = true.
Proof.
  induction kw as [|[k u] kw IH]; simpl; [done|].
  intros [Hu Hkw]%andb_true_iff.
  destruct (str_eqb k name); [by intros [= <-]|auto].
Qed.

Lemma vformat_forallb (f : N → bool) ps kw doc :
  forallb (fun p => forallb f p.1) ps = true →
  forallb (fun kv => forallb f kv.2) kw = true →
  vformat ps kw = inr doc → forallb f doc = true.
Proof.
  intros Hps Hkw. revert doc Hps.
  induction ps as [|[lit [name|]] ps IH]; intros doc; simpl.
  - by intros _ [= <-].
  - intros [Hlit Hps]%andb_true_iff.
    destruct (kw_get name kw) as [v|] eqn:Hv; [|done].
    destruct (vformat ps kw) as [e|r]; [done|]. intros [= <-].
    rewrite !forallb_app, Hlit, (kw_get_forallb f name kw v Hkw Hv).
    by rewrite (IH r Hps eq_refl).
  - intros [Hlit Hps]%andb_true_iff.
    destruct (vformat ps kw) as [e|r]; [done|]. intros [= <-].
    by rewrite forallb_app, Hlit, (IH r Hps eq_refl).
Qed.

Lemma no_linebreak_lf_or_plain s :
  no_linebreak s = true → forallb lf_or_plain s = true.
Proof.
  unfold no_linebreak. induction s as [|c s IH]; [done|]. cbn [forallb].
  intros [Hc Hs]%andb_true_iff. unfold lf_or_plain at 1. by rewrite Hc, IH.
Qed.

(** The rendered document holds no line boundary but line feeds, when the
    values hold none. *)
Lemma env_document_lf_only v1 v2 v3 v4 v5 v6 v7 v8 v9 v10 doc :
  forallb (forallb lf_or_plain) [v1; v2; v3; v4; v5; v6; v7; v8; v9; v10] = true →
  format env_template (env_kwargs v1 v2 v3 v4 v5 v6 v7 v8 v9 v10) = inr doc →
  forallb lf_or_plain doc = true.
Proof.
  intros Hv. unfold format.
  destruct (formatter_parser env_template) as [ps|] eqn:Hps;
    [|vm_compute in Hps; discriminate Hps].
  apply vformat_forallb.
  - vm_compute in Hps. injection Hps as <-. vm_compute. reflexivity.
  - unfold env_kwargs. cbn [forallb snd] in *. exact Hv.
Qed.


(** What a run of [create_env_file] writes, read back under any way to
    end lines, when no answer holds a line boundary inside. *)
Lemma create_env_file_entries_at w a1 a2 a3 a4 a5 a6 a7 a8 a9 a10 rest :
  read_lines 10 (stdin w)
    = Some ([a1; a2; a3; a4; a5; a6; a7; a8; a9; a10], rest) →
  fs w !! py ".env" ≠ Some Dir →
  forallb (fun a => no_linebreak (strip a))
    [a1; a2; a3; a4; a5; a6; a7; a8; a9; a10] = true →
  ∃ w' doc,
    create_env_file w = (Ret tt, w') ∧
    fs w' !! py ".env" = Some (File doc) ∧
    ∀ brk, line_ends brk →
      entries_at brk doc =
        env_entries (strip a1) (strip a2) (strip a3) (strip a4) (strip a5)
          (str_or (strip a6) (py "1000"))
          (strip a7) (strip a8) (strip a9) (strip a10).
Proof.
  intros Hin Henv Hplain.
  destruct (create_env_file_effect w a1 a2 a3 a4 a5 a6 a7 a8 a9 a10 rest Hin Henv)
    as (doc & Hdoc & Hentries & Hrun).
  eexists _, doc. split; [exact Hrun|]. cbn [fs].
  split; [apply lookup_insert_eq|].
  intros brk Hbrk. unfold entries_at.
  rewrite (lines_at_lf_only brk doc Hbrk); [exact Hentries|].
  apply (env_document_lf_only _ _ _ _ _ _ _ _ _ _ _ ) in Hdoc; [exact Hdoc|].
  cbn [forallb] in Hplain |- *.
  repeat (apply andb_true_iff in Hplain as [?%no_linebreak_lf_or_plain Hplain]).
  repeat (apply andb_true_iff; split; [try assumption|]); [|reflexivity].
  destruct (strip a6); [vm_compute; reflexivity|assumption].
Qed.

(** The three ways to end lines named above are among those covered. *)
Lemma line_ends_known :
  line_ends (fun c => c =? LF)%N ∧ line_ends text_mode ∧ line_ends is_linebreak.
Proof.
  repeat split; try reflexivity.
  - by intros c ->%N.eqb_eq.
  - by intros c [->%N.eqb_eq | ->%N.eqb_eq]%orb_true_iff.
  - auto.
Qed.

(** ** The keys of the document, under any way to end lines *)







(** * The claims about the pipeline *)

(** Stepping through a sequence up to the call that ends it. *)
Lemma bind_runs {A B} (m : M A) (f : A → M B) w a w1 :
  runs m w a w1 → (m ≫= f) w = f a w1.
Proof. unfold runs, mbind, M_bind. by intros ->. Qed.

Lemma bind_exit {A B} (m : M A) (f : A → M B) w s w1 :
  m w = (Exit s, w1) → (m ≫= f) w = (Exit s, w1).
Proof. unfold mbind, M_bind. by intros ->. Qed.

Lemma bind_raise {A B} (m : M A) (f : A → M B) w e w1 :
  m w = (Raise e, w1) → (m ≫= f) w = (Raise e, w1).
Proof. unfold mbind, M_bind. by intros ->. Qed.

Lemma only_prints_intro (m : M unit) w w' :
  runs m w tt w' →
  (∃ new, w' = set_stdout (stdout w ++ new) w) →
  ∃ new, m w = (Ret tt, set_stdout (stdout w ++ new) w).
Proof. intros H [new ->]. by exists new. Qed.

Ltac only_prints :=
  eapply only_prints_intro;
  [repeat run_step | world_norm; rewrite <- ?app_assoc; by eexists].

Lemma print_banner_only_prints w :
  ∃ new, print_banner w = (Ret tt, set_stdout (stdout w ++ new) w).
Proof. destruct w as [h i o f s]. unfold print_banner. only_prints. Qed.

Lemma version_lt_3_9_spec major minor :
  version_lt_3_9 (major, minor) = true ↔ major < 3 ∨ (major = 3 ∧ minor < 9).
Proof.
  unfold version_lt_3_9.
  rewrite orb_true_iff, andb_true_iff, !Z.ltb_lt, Z.eqb_eq. tauto.
Qed.

Lemma check_python_version_old w :
  version_lt_3_9 (version_info (host w)) = true →
  ∃ new, check_python_version w = (Exit 1, set_stdout (stdout w ++ new) w).
Proof.
  intros Hv. destruct w as [h i o f s]. cbn [host] in Hv.
  unfold check_python_version.
  cbv beta iota zeta delta [mbind M_bind ask print sys_exit host set_stdout
    stdin stdout fs spawned].
  rewrite Hv. cbv beta iota zeta. rewrite <- !app_assoc. by eexists.
Qed.

(** C4: on an interpreter below 3.9, [main] leaves through [sys.exit(1)]
    right after the banner: nothing was read, no file written, no
    directory made and no child started. *)
Theorem old_python_exits_before_any_write w major minor :
  version_info (host w) = (major, minor) →
  major < 3 ∨ (major = 3 ∧ minor < 9) →
  ∃ w',
    main w = (Exit 1, w') ∧ exit_status (main w).1 ≠ 0 ∧
    fs w' = fs w ∧ stdin w' = stdin w ∧ spawned w' = spawned w.
Proof.
  intros Hv Hold.
  assert (version_lt_3_9 (version_info (host w)) = true) as Hlt
    by (rewrite Hv; by apply version_lt_3_9_spec).
  destruct (print_banner_only_prints w) as [new1 H1].
  destruct (check_python_version_old (set_stdout (stdout w ++ new1) w) Hlt)
    as [new2 H2].
  assert (main w = (Exit 1, set_stdout (stdout w ++ new1 ++ new2) w)) as Hmain.
  { unfold main. rewrite (bind_runs _ _ _ _ _ H1). cbv beta.
    rewrite (bind_exit _ _ _ _ _ H2).
    destruct w as [h i o f s]. world_norm. by rewrite <- app_assoc. }
  eexists. rewrite Hmain. by destruct w.
Qed.

Lemma old_python_exits_before_any_write_witness :
  ∃ w',
    main python38_world = (Exit 1, w') ∧ exit_status (main python38_world).1 ≠ 0 ∧
    fs w' = fs python38_world ∧ stdin w' = stdin python38_world ∧
    spawned w' = spawned python38_world.
Proof.
  apply (old_python_exits_before_any_write python38_world 3 8).
  - reflexivity.
  - right. lia.
Defined.

(** Evaluating a stage on a world in constructor form. *)
Ltac eval_stage :=
  cbv beta iota zeta delta
    [mbind M_bind mret M_ret try_except print ask sys_exit raise lift_exc
     subprocess_run str_of_opt returncode cp_stderr cp_stdout
     is_CalledProcessError andb negb
     host stdin stdout fs spawned set_stdin set_stdout set_fs set_spawned].

Lemma install_dependencies_fails w el rc out err :
  child (host w) (pip_install (sys_executable (host w))) = Exits el rc out err →
  rc ≠ 0 →
  install_dependencies w =
    (Exit 1,
     mkWorld (host w) (stdin w)
       (stdout w ++
        [Printed (nl ++ py "📦 INSTALLING DEPENDENCIES");
         Printed (str_mul (py "=") 40);
         Printed (py "❌ Error installing dependencies: "
                  ++ exc_str (host w)
                       (CalledProcessError rc
                          (pip_install (sys_executable (host w)))
                          (Some out) (Some err)));
         Printed (py "Error output: " ++ err)])
       (fs w)
       (spawned w ++ [pip_install (sys_executable (host w))])).
Proof.
  intros Hchild Hrc. destruct w as [h i o f s]. cbn [host] in Hchild.
  apply Z.eqb_neq in Hrc.
  unfold install_dependencies. eval_stage. rewrite Hchild, Hrc. eval_stage.
  by rewrite <- !app_assoc.
Qed.

(** C6: when the package manager exits with a non-zero status, the
    installation stage prints the captured error text and leaves through
    [sys.exit(1)]; [main] ends there, in the world the stage left: no
    directory was made and no other child was started. *)
Theorem failed_install_aborts w0 wa wb w el rc out err :
  print_banner w0 = (Ret tt, wa) →
  check_python_version wa = (Ret tt, wb) →
  create_env_file wb = (Ret tt, w) →
  child (host w) (pip_install (sys_executable (host w))) = Exits el rc out err →
  rc ≠ 0 →
  ∃ w' new,
    install_dependencies w = (Exit 1, w') ∧
    main w0 = (Exit 1, w') ∧ exit_status (main w0).1 = 1 ∧
    stdout w' = stdout w ++ new ∧ In (Printed (py "Error output: " ++ err)) new ∧
    fs w' = fs w ∧
    spawned w' = spawned w ++ [pip_install (sys_executable (host w))].
Proof.
  intros H1 H2 H3 Hchild Hrc.
  pose proof (install_dependencies_fails w el rc out err Hchild Hrc) as H4.
  lazymatch type of H4 with _ = ?r => assert (main w0 = r) as Hmain end.
  { unfold main. rewrite (bind_runs _ _ _ _ _ H1). cbv beta.
    rewrite (bind_runs _ _ _ _ _ H2). cbv beta.
    rewrite (bind_runs _ _ _ _ _ H3). cbv beta.
    exact (bind_exit _ _ _ _ _ H4). }
  eexists _, _. rewrite Hmain. split; [exact H4|]. cbn [fst snd exit_status].
  world_norm. do 3 (split; [reflexivity|]).
  split; [|by split]. do 3 right. left. reflexivity.
Qed.

Lemma failed_install_aborts_witness :
  ∃ w' new,
    install_dependencies (configured pip_fails_world) = (Exit 1, w') ∧
    main pip_fails_world = (Exit 1, w') ∧
    exit_status (main pip_fails_world).1 = 1 ∧
    stdout w' = stdout (configured pip_fails_world) ++ new ∧
    In (Printed (py "Error output: " ++ py "ERROR: No matching distribution")) new ∧
    fs w' = fs (configured pip_fails_world) ∧
    spawned w' =
      spawned (configured pip_fails_world)
      ++ [pip_install (sys_executable (host (configured pip_fails_world)))].
Proof.
  apply (failed_install_aborts pip_fails_world
           (after print_banner pip_fails_world)
           (after check_python_version (after print_banner pip_fails_world))
           (configured pip_fails_world)
           12 1 [] (py "ERROR: No matching distribution")).
  - vm_compute. reflexivity.
  - vm_compute. reflexivity.
  - vm_compute. reflexivity.
  - vm_compute. reflexivity.
  - lia.
Defined.

Lemma run_tests_fails w el rc out err :
  child (host w) (smoke_test (sys_executable (host w))) = Exits el rc out err →
  rc ≠ 0 ∨ (60 < el)%N →
  run_tests w =
    (Ret tt,
     mkWorld (host w) (stdin w)
       (stdout w ++
        [Printed (nl ++ py "🧪 RUNNING TESTS"); Printed (str_mul (py "=") 40)] ++
        (if (60 <? el)%N then
           [Printed (py "⚠️  Test failed: "
                     ++ exc_str (host w)
                          (TimeoutExpired (smoke_test (sys_executable (host w)))
                             60 (Some out) (Some err)))]
         else
           [Printed (py "⚠️  AI test failed - check your API keys");
            Printed (py "Error: " ++ err)]))
       (fs w)
       (spawned w ++ [smoke_test (sys_executable (host w))])).
Proof.
  intros Hchild Hfail. destruct w as [h i o f s]. cbn [host] in Hchild.
  unfold run_tests. eval_stage. rewrite Hchild.
  destruct (60 <? el)%N eqn:Hel.
  - eval_stage. by rewrite <- !app_assoc.
  - destruct Hfail as [Hrc|Hlt]; [|apply N.ltb_lt in Hlt; congruence].
    apply Z.eqb_neq in Hrc. eval_stage. rewrite Hrc. eval_stage.
    by rewrite <- !app_assoc.
Qed.

(** The smoke test returns whatever its child does, also when the child
    cannot be started. *)
Lemma run_tests_returns w : ∃ w', run_tests w = (Ret tt, w').
Proof.
  destruct w as [h i o f s]. unfold run_tests. eval_stage.
  destruct (child h (smoke_test (sys_executable h))) as [el rc out err|k].
  - destruct (60 <? el)%N; eval_stage; [by eexists|].
    destruct (rc =? 0); eval_stage; by eexists.
  - eval_stage. by eexists.
Qed.

(** C7, as the code has it: when the child of the smoke test exits with a
    non-zero status or runs past the 60 seconds, [run_tests] returns all
    the same and [main] goes on with the dispatcher, in the world the
    smoke test left.  On a non-zero exit the warning is followed by the
    captured error output of the child; on a timeout the one line of the
    warning is the text of the timeout exception as the library renders
    it, which names the command and the limit and holds nothing of what
    the child wrote. *)
Theorem smoke_test_failure_is_advisory w0 wa wb wc wd w el rc out err :
  print_banner w0 = (Ret tt, wa) →
  check_python_version wa = (Ret tt, wb) →
  create_env_file wb = (Ret tt, wc) →
  install_dependencies wc = (Ret tt, wd) →
  create_directories wd = (Ret tt, w) →
  child (host w) (smoke_test (sys_executable (host w))) = Exits el rc out err →
  rc ≠ 0 ∨ (60 < el)%N →
  ((60 < el)%N →
   exc_str (host w)
     (TimeoutExpired (smoke_test (sys_executable (host w))) 60 (Some out) (Some err))
     = timeout_text (smoke_test (sys_executable (host w))) 60) →
  ∃ w' warning,
    run_tests w = (Ret tt, w') ∧
    stdout w' =
      stdout w ++
      [Printed (nl ++ py "🧪 RUNNING TESTS"); Printed (str_mul (py "=") 40)] ++
      warning ∧
    warning =
      (if (60 <? el)%N then
         [Printed (py "⚠️  Test failed: "
                   ++ timeout_text (smoke_test (sys_executable (host w))) 60)]
       else
         [Printed (py "⚠️  AI test failed - check your API keys");
          Printed (py "Error: " ++ err)]) ∧
    fs w' = fs w ∧ stdin w' = stdin w ∧
    main w0 = (show_deployment_options;; print_complete) w'.
Proof.
  intros H1 H2 H3 H4 H5 Hchild Hfail Htext.
  pose proof (run_tests_fails w el rc out err Hchild Hfail) as H6.
  assert (main w0 = (run_tests;; show_deployment_options;; print_complete) w)
    as Hmain.
  { unfold main. rewrite (bind_runs _ _ _ _ _ H1). cbv beta.
    rewrite (bind_runs _ _ _ _ _ H2). cbv beta.
    rewrite (bind_runs _ _ _ _ _ H3). cbv beta.
    rewrite (bind_runs _ _ _ _ _ H4). cbv beta.
    by rewrite (bind_runs _ _ _ _ _ H5). }
  rewrite Hmain.
  destruct (60 <? el)%N eqn:Hel.
  - rewrite Htext in H6 by by apply N.ltb_lt.
    eexists _, _. split; [exact H6|]. world_norm.
    do 4 (split; [reflexivity|]). by rewrite (bind_runs _ _ _ _ _ H6).
  - eexists _, _. split; [exact H6|]. world_norm.
    do 4 (split; [reflexivity|]). by rewrite (bind_runs _ _ _ _ _ H6).
Qed.

Lemma smoke_test_failure_is_advisory_witness :
  ∃ w' warning,
    run_tests (provisioned slow_test_world) = (Ret tt, w') ∧
    stdout w' =
      stdout (provisioned slow_test_world) ++
      [Printed (nl ++ py "🧪 RUNNING TESTS"); Printed (str_mul (py "=") 40)] ++
      warning ∧
    warning =
      (if (60 <? 61)%N then
         [Printed (py "⚠️  Test failed: "
                   ++ timeout_text
                        (smoke_test (sys_executable
                                       (host (provisioned slow_test_world)))) 60)]
       else
         [Printed (py "⚠️  AI test failed - check your API keys");
          Printed (py "Error: " ++ py "Connecting to api.openai.com")]) ∧
    fs w' = fs (provisioned slow_test_world) ∧
    stdin w' = stdin (provisioned slow_test_world) ∧
    main slow_test_world = (show_deployment_options;; print_complete) w'.
Proof.
  apply (smoke_test_failure_is_advisory slow_test_world
           (after print_banner slow_test_world)
           (after check_python_version (after print_banner slow_test_world))
           (configured slow_test_world)
           (after install_dependencies (configured slow_test_world))
           (provisioned slow_test_world)
           61 0 [] (py "Connecting to api.openai.com")).
  - vm_compute. reflexivity.
  - vm_compute. reflexivity.
  - vm_compute. reflexivity.
  - vm_compute. reflexivity.
  - vm_compute. reflexivity.
  - vm_compute. reflexivity.
  - right. lia.
  - intros _. vm_compute. reflexivity.
Defined.

(** C7 as stated fails on a timeout: the child had written to its error
    output, and no line printed by [run_tests] holds that text. *)
Lemma timeout_hides_captured_text : ¬ failure_text_surfaced slow_test_world.
Proof.
  intros Hclaim.
  destruct (Hclaim 61%N 0 [] (py "Connecting to api.openai.com"))
    as (w' & l & Hrun & Hin & Hl).
  { vm_compute. reflexivity. }
  { right. lia. }
  vm_compute in Hrun. injection Hrun as <-.
  cbn [stdout] in Hin.
  destruct Hin as [[= <-]|[[= <-]|[[= <-]|[]]]];
    vm_compute in Hl; discriminate Hl.
Qed.

Lemma print_complete_only_prints w :
  ∃ new,
    print_complete w = (Ret tt, set_stdout (stdout w ++ new) w) ∧
    In (Printed (nl ++ py "🎉 DEPLOYMENT COMPLETE!")) new.
Proof.
  destruct w as [h i o f s].
  assert (∃ w', runs print_complete (mkWorld h i o f s) tt w' ∧
            ∃ new, w' = mkWorld h i (o ++ new) f s ∧
                   In (Printed (nl ++ py "🎉 DEPLOYMENT COMPLETE!")) new)
    as (w' & Hrun & new & -> & Hnew).
  { eexists. split; [unfold print_complete; repeat run_step|].
    world_norm. rewrite <- !app_assoc. eexists. split; [reflexivity|].
    apply in_or_app. left. apply in_eq. }
  by exists new.
Qed.

Lemma str_eqb_neq s t : s ≠ t → str_eqb s t = false.
Proof.
  intros Hne. destruct (str_eqb s t) eqn:E; [|done].
  by apply str_eqb_eq in E.
Qed.

(** C8: a choice that, stripped, is none of [1], [2], [3], [4] makes the
    dispatcher print that the choice is invalid and return: no file is
    written, no child started, nothing raised, and the lines that report
    completion follow. *)
Theorem unknown_choice_does_nothing w l rest :
  read1 (stdin w) = Some (l, rest) →
  ¬ In (strip l) [py "1"; py "2"; py "3"; py "4"] →
  ∃ w' w'' new,
    show_deployment_options w = (Ret tt, w') ∧
    fs w' = fs w ∧ spawned w' = spawned w ∧
    last (stdout w') = Some (Printed (py "Invalid choice. Exiting.")) ∧
    (show_deployment_options;; print_complete) w = (Ret tt, w'') ∧
    fs w'' = fs w ∧ spawned w'' = spawned w ∧
    stdout w'' = stdout w' ++ new ∧
    In (Printed (nl ++ py "🎉 DEPLOYMENT COMPLETE!")) new.
Proof.
  intros Hin Hchoice.
  assert (str_eqb (strip l) (py "1") = false) as E1
    by (apply str_eqb_neq; intros E; apply Hchoice; rewrite E; apply in_eq).
  assert (str_eqb (strip l) (py "2") = false) as E2
    by (apply str_eqb_neq; intros E; apply Hchoice; rewrite E;
        do 1 right; apply in_eq).
  assert (str_eqb (strip l) (py "3") = false) as E3
    by (apply str_eqb_neq; intros E; apply Hchoice; rewrite E;
        do 2 right; apply in_eq).
  assert (str_eqb (strip l) (py "4") = false) as E4
    by (apply str_eqb_neq; intros E; apply Hchoice; rewrite E;
        do 3 right; apply in_eq).
  destruct w as [h i o f s]. cbn [stdin] in Hin.
  assert (∃ w', runs show_deployment_options (mkWorld h i o f s) tt w' ∧
                fs w' = f ∧ spawned w' = s ∧
                last (stdout w') = Some (Printed (py "Invalid choice. Exiting.")))
    as (w' & Hrun & Hfs & Hsp & Hlast).
  { eexists. split.
    - unfold show_deployment_options. do 7 run_step.
      rewrite E1, E2, E3, E4. apply runs_print.
    - world_norm. do 2 (split; [reflexivity|]). apply last_snoc. }
  destruct (print_complete_only_prints w') as (new & Hdone & Hnew).
  exists w', (set_stdout (stdout w' ++ new) w'), new.
  rewrite (bind_runs _ _ _ _ _ Hrun), Hdone.
  destruct w' as [h' i' o' f' s']. world_norm.
  cbn [fs spawned stdout] in Hfs, Hsp, Hlast.
  split; [exact Hrun|]. split; [exact Hfs|]. split; [exact Hsp|].
  split; [exact Hlast|]. split; [reflexivity|]. split; [exact Hfs|].
  split; [exact Hsp|]. split; [reflexivity|exact Hnew].
Qed.

Lemma unknown_choice_does_nothing_witness :
  ∃ w' w'' new,
    show_deployment_options (mkWorld (sample_host all_succeed) (py " 9 " ++ nl) [] ∅ [])
      = (Ret tt, w') ∧
    fs w' = ∅ ∧ spawned w' = [] ∧
    last (stdout w') = Some (Printed (py "Invalid choice. Exiting.")) ∧
    (show_deployment_options;; print_complete)
      (mkWorld (sample_host all_succeed) (py " 9 " ++ nl) [] ∅ [])
      = (Ret tt, w'') ∧
    fs w'' = ∅ ∧ spawned w'' = [] ∧
    stdout w'' = stdout w' ++ new ∧
    In (Printed (nl ++ py "🎉 DEPLOYMENT COMPLETE!")) new.
Proof.
  apply (unknown_choice_does_nothing
           (mkWorld (sample_host all_succeed) (py " 9 " ++ nl) [] ∅ [])
           (py " 9 ") []).
  - vm_compute. reflexivity.
  - vm_compute. intros [H|[H|[H|[H|[]]]]]; discriminate H.
Defined.

(** * Directory provisioning *)

(** One round of the loop: the directory is made, then reported. *)
Lemma mkdir_each_cons d ds w :
  mkdir_each (d :: ds) w =
    match Path_mkdir d true w with
    | (Ret _, w1) =>
      mkdir_each ds
        (set_stdout (stdout w1 ++ [Printed (py "✅ Created " ++ d ++ py "/")]) w1)
    | (Exit st, w1) => (Exit st, w1)
    | (Raise e, w1) => (Raise e, w1)
    end.
Proof.
  unfold mkdir_each. cbn [for_each]. unfold mbind, M_bind, print.
  by destruct (Path_mkdir d true w) as [[[]| |] w1].
Qed.

(** [Path.mkdir(exist_ok=True)] returns with the directory in place and the
    other entries as they were, or raises and changes nothing. *)
Lemma Path_mkdir_cases d w :
  (∃ e, Path_mkdir d true w = (Raise e, w) ∧ fs w !! d ≠ Some Dir) ∨
  (∃ w1, Path_mkdir d true w = (Ret tt, w1) ∧
         fs w1 !! d = Some Dir ∧
         (∀ p, fs w !! p = Some Dir → fs w1 !! p = Some Dir) ∧
         (fs w !! d = Some Dir → w1 = w) ∧
         host w1 = host w ∧ stdin w1 = stdin w ∧ stdout w1 = stdout w ∧
         spawned w1 = spawned w).
Proof.
  unfold Path_mkdir. destruct (fs w !! d) as [[|c]|] eqn:Hd.
  - right. exists w. by rewrite Hd.
  - left. by eexists.
  - destruct (parent_check (fs w) d) as [k|]; [left; by eexists|].
    right. eexists. split; [reflexivity|]. cbn [fs set_fs host stdin stdout spawned].
    rewrite lookup_insert_eq. split; [done|]. split; [|done].
    intros p Hp. destruct (decide (d = p)) as [->|Hne]; [congruence|].
    by rewrite lookup_insert_ne.
Qed.

(** The outcome of a call of [Path.mkdir] is decided by the file system. *)
Lemma Path_mkdir_fs d w v :
  fs w = fs v →
  (Path_mkdir d true w).1 = (Path_mkdir d true v).1 ∧
  fs (Path_mkdir d true w).2 = fs (Path_mkdir d true v).2.
Proof.
  intros E. unfold Path_mkdir. rewrite <- E.
  destruct (fs w !! d) as [[|c]|]; [done|done|].
  destruct (parent_check (fs w) d); [done|]. cbn [fst snd fs set_fs]. by rewrite E.
Qed.

Lemma mkdir_each_fs ds w v :
  fs w = fs v →
  (mkdir_each ds w).1 = (mkdir_each ds v).1 ∧
  fs (mkdir_each ds w).2 = fs (mkdir_each ds v).2.
Proof.
  revert w v. induction ds as [|d ds IH]; intros w v E; [done|].
  rewrite !mkdir_each_cons.
  destruct (Path_mkdir_fs d w v E) as [Hr Hf].
  destruct (Path_mkdir d true w) as [[[]|st|e] w1],
           (Path_mkdir d true v) as [[[]|st'|e'] v1];
    cbn [fst snd] in Hr, Hf; try discriminate Hr; try (by injection Hr as ->).
  by apply IH.
Qed.

Lemma mkdir_each_keeps_dirs ds w r w1 p :
  mkdir_each ds w = (r, w1) → fs w !! p = Some Dir → fs w1 !! p = Some Dir.
Proof.
  revert w. induction ds as [|d ds IH]; intros w Hrun Hp.
  - by injection Hrun as _ <-.
  - rewrite mkdir_each_cons in Hrun.
    destruct (Path_mkdir_cases d w) as [(e & He & _)|(wm & Hm & _ & Hkeep & _)].
    + rewrite He in Hrun. by injection Hrun as _ <-.
    + rewrite Hm in Hrun. eapply IH; [exact Hrun|]. by apply Hkeep.
Qed.

(** Running the loop again gives the outcome of the first run and leaves
    the file system of the first run. *)
Lemma mkdir_each_again ds w r w1 :
  mkdir_each ds w = (r, w1) →
  (mkdir_each ds w1).1 = r ∧ fs (mkdir_each ds w1).2 = fs w1.
Proof.
  revert w. induction ds as [|d ds IH]; intros w Hrun.
  - by injection Hrun as <- <-.
  - pose proof Hrun as Hrun0. rewrite mkdir_each_cons in Hrun.
    destruct (Path_mkdir_cases d w) as [(e & He & Hnd)|(wm & Hm & Hd & _)].
    + rewrite He in Hrun. injection Hrun as <- <-.
      rewrite mkdir_each_cons, He. done.
    + rewrite Hm in Hrun.
      assert (fs w1 !! d = Some Dir) as Hd1
        by (eapply mkdir_each_keeps_dirs; [exact Hrun|exact Hd]).
      rewrite mkdir_each_cons.
      destruct (Path_mkdir_cases d w1) as [(e & _ & Hnd)|(w2 & H2 & _ & _ & Hsame & _)];
        [done|].
      rewrite H2, (Hsame Hd1).
      destruct (IH _ Hrun) as [IHr IHf].
      destruct (mkdir_each_fs ds
                  (set_stdout (stdout w1 ++ [Printed (py "✅ Created " ++ d ++ py "/")]) w1)
                  w1 eq_refl) as [Er Ef].
      by rewrite Er, Ef.
Qed.

Lemma mkdir_each_makes_all ds w w1 :
  mkdir_each ds w = (Ret tt, w1) → Forall (λ d, fs w1 !! d = Some Dir) ds.
Proof.
  revert w. induction ds as [|d ds IH]; intros w Hrun; [constructor|].
  rewrite mkdir_each_cons in Hrun.
  destruct (Path_mkdir_cases d w) as [(e & He & _)|(wm & Hm & Hd & _)].
  - rewrite He in Hrun. discriminate Hrun.
  - rewrite Hm in Hrun. constructor; [|by eapply IH].
    eapply mkdir_each_keeps_dirs; [exact Hrun|exact Hd].
Qed.

Lemma create_directories_unfold w :
  create_directories w =
    mkdir_each [py "data"; py "logs"; py "reports"]
      (set_stdout (stdout w ++ [Printed (nl ++ py "📁 CREATING DIRECTORIES");
                                Printed (str_mul (py "=") 40)]) w).
Proof.
  destruct w as [h i o f s]. unfold create_directories.
  cbv beta iota zeta delta [mbind M_bind print set_stdout host stdin stdout
                            fs spawned].
  by rewrite <- app_assoc.
Qed.

(** C9: provisioning a list of paths a second time, after a first time
    that raised nothing, raises nothing and leaves the file system as the
    first time left it, with every path of the list a directory; an entry
    is kept under its path, so no path has two.  [create_directories] is
    the case of [data], [logs] and [reports]. *)
Theorem provisioning_idempotent ds w w1 wc wc1 :
  mkdir_each ds w = (Ret tt, w1) →
  create_directories wc = (Ret tt, wc1) →
  (∃ w2, mkdir_each ds w1 = (Ret tt, w2) ∧ fs w2 = fs w1 ∧
         Forall (λ d, fs w2 !! d = Some Dir) ds) ∧
  (∃ wc2, create_directories wc1 = (Ret tt, wc2) ∧ fs wc2 = fs wc1 ∧
          Forall (λ d, fs wc2 !! d = Some Dir) [py "data"; py "logs"; py "reports"]).
Proof.
  intros Hrun Hc. split.
  - destruct (mkdir_each_again ds w _ _ Hrun) as [Hr Hf].
    destruct (mkdir_each ds w1) as [r2 w2] eqn:H2. cbn [fst snd] in Hr, Hf.
    subst r2. exists w2. split; [done|]. split; [done|].
    rewrite Hf. by eapply mkdir_each_makes_all.
  - rewrite create_directories_unfold in Hc.
    destruct (mkdir_each_again _ _ _ _ Hc) as [Hr Hf].
    rewrite create_directories_unfold.
    destruct (mkdir_each_fs [py "data"; py "logs"; py "reports"]
                (set_stdout (stdout wc1 ++
                   [Printed (nl ++ py "📁 CREATING DIRECTORIES");
                    Printed (str_mul (py "=") 40)]) wc1) wc1 eq_refl)
      as [Er Ef].
    rewrite <- Er in Hr. rewrite <- Ef in Hf.
    destruct (mkdir_each _ (set_stdout _ wc1)) as [r2 wc2] eqn:H2.
    cbn [fst snd] in Hr, Hf. subst r2. exists wc2.
    split; [done|]. split; [done|]. rewrite Hf.
    by eapply mkdir_each_makes_all.
Qed.

Lemma provisioning_idempotent_witness :
  (∃ w2,
     mkdir_each [py "var"; py "var/cache"; py "var"]
       (after (mkdir_each [py "var"; py "var/cache"; py "var"]) sample_world)
       = (Ret tt, w2) ∧
     fs w2 = fs (after (mkdir_each [py "var"; py "var/cache"; py "var"]) sample_world) ∧
     Forall (λ d, fs w2 !! d = Some Dir) [py "var"; py "var/cache"; py "var"]) ∧
  (∃ wc2,
     create_directories (after create_directories sample_world) = (Ret tt, wc2) ∧
     fs wc2 = fs (after create_directories sample_world) ∧
     Forall (λ d, fs wc2 !! d = Some Dir) [py "data"; py "logs"; py "reports"]).
Proof.
  apply (provisioning_idempotent [py "var"; py "var/cache"; py "var"]
           sample_world
           (after (mkdir_each [py "var"; py "var/cache"; py "var"]) sample_world)
           sample_world
           (after create_directories sample_world)).
  - vm_compute. reflexivity.
  - vm_compute. reflexivity.
Defined.

(** * The container strategy *)

(** When the probe runs and exits with a non-zero status, the strategy
    reports it and returns; build and run are not attempted. *)
Lemma deploy_docker_probe_nonzero w el rc out err :
  child (host w) docker_probe = Exits el rc out err →
  rc ≠ 0 →
  deploy_docker w =
    (Ret tt,
     mkWorld (host w) (stdin w)
       (stdout w ++
        [Printed (nl ++ py "🐳 DOCKER DEPLOYMENT");
         Printed (str_mul (py "=") 40);
         Printed (py "❌ Docker not available or failed");
         Printed (py "Install Docker from https://docker.com")])
       (fs w)
       (spawned w ++ [docker_probe])).
Proof.
  intros Hchild Hrc. destruct w as [h i o f s]. cbn [host] in Hchild.
  apply Z.eqb_neq in Hrc.
  unfold deploy_docker. eval_stage. rewrite Hchild, Hrc. eval_stage.
  by rewrite <- !app_assoc.
Qed.

(** When the probe cannot be started, [subprocess.run] raises an
    [OSError], which the handler for [CalledProcessError] does not catch:
    the strategy raises, having printed its heading only. *)
Lemma deploy_docker_engine_absent w k :
  child (host w) docker_probe = NoSpawn k →
  deploy_docker w =
    (Raise (OSError k),
     mkWorld (host w) (stdin w)
       (stdout w ++
        [Printed (nl ++ py "🐳 DOCKER DEPLOYMENT");
         Printed (str_mul (py "=") 40)])
       (fs w)
       (spawned w ++ [docker_probe])).
Proof.
  intros Hchild. destruct w as [h i o f s]. cbn [host] in Hchild.
  unfold deploy_docker. eval_stage. rewrite Hchild. eval_stage.
  by rewrite <- !app_assoc.
Qed.

(** C2, where the code falls short of it: with the container engine not
    installed and option [3] chosen, the probe raises [FileNotFoundError]
    through the strategy, the dispatcher and [main]; the process ends with
    status 1, the failure report of the strategy and the completion lines
    are not printed (the last line printed is the rule under the heading of
    the strategy).  Build and run are not attempted. *)
Theorem docker_absent_is_not_caught :
  (deploy_docker docker_absent_world).1 = Raise (OSError FileNotFoundError) ∧
  (main docker_absent_world).1 = Raise (OSError FileNotFoundError) ∧
  exit_status (main docker_absent_world).1 = 1 ∧
  last (stdout (after main docker_absent_world))
    = Some (Printed (str_mul (py "=") 40)) ∧
  spawned (after main docker_absent_world)
    = [pip_install (py "/usr/bin/python3"); smoke_test (py "/usr/bin/python3");
       docker_probe].
Proof. vm_compute. repeat split. Qed.

(** * Further properties of config collection *)

(** Stepping to the call that raises, keeping the world it leaves. *)
Ltac run_to_raise_at :=
  repeat (eapply ends_bind; [run_prim | cbv beta zeta; world_norm]);
  eapply bind_raise;
  first [ apply input_eof; eassumption
        | apply write_file_on_dir; eassumption ].

Section ConfigRuns.

Variable w : World.

(** X1: if the input ends before the ten prompts are answered,
    [create_env_file] raises [EOFError]; no file is written and no child
    is started. *)
Theorem config_eof_writes_nothing :
  read_lines 10 (stdin w) = None →
  ∃ w', create_env_file w = (Raise EOFError, w') ∧
        fs w' = fs w ∧ spawned w' = spawned w.
Proof.
  destruct w as [h i o f s]. cbn [stdin fs spawned]. unfold create_env_file.
  intros Hin. cbn [read_lines] in Hin.
  destruct (read1 i) as [[a1 r1]|] eqn:H1;
    [|eexists; split; [run_to_raise_at|by world_norm]].
  destruct (startswith (strip a1) (py "sk-")) eqn:Hsk;
  (destruct (read1 r1) as [[a2 r2]|] eqn:H2;
     [|eexists; split; [run_to_raise_at|by world_norm]];
   destruct (read1 r2) as [[a3 r3]|] eqn:H3;
     [|eexists; split; [run_to_raise_at|by world_norm]];
   destruct (read1 r3) as [[a4 r4]|] eqn:H4;
     [|eexists; split; [run_to_raise_at|by world_norm]];
   destruct (read1 r4) as [[a5 r5]|] eqn:H5;
     [|eexists; split; [run_to_raise_at|by world_norm]];
   destruct (read1 r5) as [[a6 r6]|] eqn:H6;
     [|eexists; split; [run_to_raise_at|by world_norm]];
   destruct (read1 r6) as [[a7 r7]|] eqn:H7;
     [|eexists; split; [run_to_raise_at|by world_norm]];
   destruct (read1 r7) as [[a8 r8]|] eqn:H8;
     [|eexists; split; [run_to_raise_at|by world_norm]];
   destruct (read1 r8) as [[a9 r9]|] eqn:H9;
     [|eexists; split; [run_to_raise_at|by world_norm]];
   destruct (read1 r9) as [[a10 r10]|] eqn:H10;
     [|eexists; split; [run_to_raise_at|by world_norm]];
   discriminate Hin).
Qed.

Variables a1 a2 a3 a4 a5 a6 a7 a8 a9 a10 rest : str.

Hypothesis answers :
  read_lines 10 (stdin w)
    = Some ([a1; a2; a3; a4; a5; a6; a7; a8; a9; a10], rest).
Hypothesis no_directory : fs w !! py ".env" ≠ Some Dir.

(** X3: a run that returns takes the ten answers off the input, starts no
    child, and changes the file system at the path of the document only;
    the document is the template filled with the answers, whatever stood
    there before. *)
Theorem config_touches_only_document :
  ∃ w' doc,
    create_env_file w = (Ret tt, w') ∧
    format env_template
      (env_kwargs (strip a1) (strip a2) (strip a3) (strip a4) (strip a5)
         (str_or (strip a6) (py "1000"))
         (strip a7) (strip a8) (strip a9) (strip a10)) = inr doc ∧
    fs w' !! py ".env" = Some (File doc) ∧
    (∀ p, p ≠ py ".env" → fs w' !! p = fs w !! p) ∧
    stdin w' = rest ∧ spawned w' = spawned w ∧ host w' = host w.
Proof.
  destruct (create_env_file_effect w _ _ _ _ _ _ _ _ _ _ _ answers no_directory)
    as (doc & Hdoc & _ & Hrun).
  eexists _, doc. split; [exact Hrun|]. split; [exact Hdoc|].
  cbn [fs stdin spawned host]. rewrite lookup_insert_eq.
  split; [reflexivity|]. split; [|by repeat split].
  intros p Hp. by rewrite lookup_insert_ne.
Qed.

(** X5: the ten prompts come in the same order whatever is answered, and
    the warning about the OpenAI key is printed exactly when the stripped
    key does not start with [sk-]. *)
Theorem config_prompts_and_warning :
  ∃ w' new,
    create_env_file w = (Ret tt, w') ∧
    stdout w' = stdout w ++ new ∧
    prompts new =
      [py "Enter your OpenAI API key (sk-...): ";
       py "Enter your Anthropic API key (optional, sk-ant-...): ";
       py "Enter your Groq API key (optional, gsk-...): ";
       py "Enter your Alpaca API key: ";
       py "Enter your Alpaca Secret key: ";
       py "Starting capital (default: 1000): ";
       py "Slack webhook URL (optional): ";
       py "Email for notifications (optional): ";
       py "Email to receive reports (optional): ";
       py "Email app password (optional): "] ∧
    (In (Printed sk_warning) new ↔ startswith (strip a1) (py "sk-") = false).
Proof.
  destruct (create_env_file_effect w _ _ _ _ _ _ _ _ _ _ _ answers no_directory)
    as (doc & _ & _ & Hrun).
  eexists _, _. split; [exact Hrun|]. cbn [stdout]. split; [reflexivity|].
  unfold config_transcript.
  destruct (startswith (strip a1) (py "sk-")).
  - split; [reflexivity|]. split; [|discriminate].
    intros Hin. exfalso. vm_compute in Hin.
    repeat (destruct Hin as [Hin|Hin]; [discriminate Hin|]). exact Hin.
  - split; [reflexivity|]. split; [reflexivity|]. intros _.
    do 3 right. left. reflexivity.
Qed.

(** X6: the value of [STARTING_CASH] in the document is never empty. *)
Theorem config_starting_cash_not_empty :
  ∃ w' doc v,
    create_env_file w = (Ret tt, w') ∧
    fs w' !! py ".env" = Some (File doc) ∧
    value_of (py "STARTING_CASH") doc = Some v ∧ v ≠ [].
Proof.
  destruct (create_env_file_effect w _ _ _ _ _ _ _ _ _ _ _ answers no_directory)
    as (doc & _ & Hentries & Hrun).
  eexists _, doc, _. split; [exact Hrun|]. cbn [fs]. rewrite lookup_insert_eq.
  split; [done|]. unfold value_of. rewrite Hentries.
  destruct (env_entries_values (strip a1) (strip a2) (strip a3) (strip a4)
              (strip a5) (str_or (strip a6) (py "1000")) (strip a7)
              (strip a8) (strip a9) (strip a10))
    as (_ & _ & _ & _ & E6 & _).
  split; [exact E6|]. unfold str_or. destruct (strip a6); [|done].
  vm_compute. discriminate.
Qed.

End ConfigRuns.

Lemma config_eof_writes_nothing_witness :
  ∃ w', create_env_file short_input_world = (Raise EOFError, w') ∧
        fs w' = fs short_input_world ∧ spawned w' = spawned short_input_world.
Proof.
  apply (config_eof_writes_nothing short_input_world).
  vm_compute. reflexivity.
Defined.

Lemma config_touches_only_document_witness :
  ∃ w' doc,
    create_env_file rerun_world = (Ret tt, w') ∧
    format env_template
      (env_kwargs (strip (py "sk-abc")) (strip (py "ant")) (strip (py "gsk"))
         (strip (py " AK1 ")) (strip (py "SECRET"))
         (str_or (strip (py " 500 ")) (py "1000"))
         (strip (py "https://hooks.example/x")) (strip (py "from@example.org"))
         (strip (py "to@example.org")) (strip (py "pw"))) = inr doc ∧
    fs w' !! py ".env" = Some (File doc) ∧
    (∀ p, p ≠ py ".env" → fs w' !! p = fs rerun_world !! p) ∧
    stdin w' = py "1" ++ nl ∧ spawned w' = spawned rerun_world ∧
    host w' = host rerun_world.
Proof.
  apply (config_touches_only_document rerun_world
           (py "sk-abc") (py "ant") (py "gsk") (py " AK1 ") (py "SECRET")
           (py " 500 ") (py "https://hooks.example/x")
           (py "from@example.org") (py "to@example.org") (py "pw")
           (py "1" ++ nl)).
  - vm_compute. reflexivity.
  - vm_compute. discriminate.
Defined.

Lemma config_prompts_and_warning_witness :
  ∃ w' new,
    create_env_file blank_world = (Ret tt, w') ∧
    stdout w' = stdout blank_world ++ new ∧
    prompts new =
      [py "Enter your OpenAI API key (sk-...): ";
       py "Enter your Anthropic API key (optional, sk-ant-...): ";
       py "Enter your Groq API key (optional, gsk-...): ";
       py "Enter your Alpaca API key: ";
       py "Enter your Alpaca Secret key: ";
       py "Starting capital (default: 1000): ";
       py "Slack webhook URL (optional): ";
       py "Email for notifications (optional): ";
       py "Email to receive reports (optional): ";
       py "Email app password (optional): "] ∧
    (In (Printed sk_warning) new ↔ startswith (strip []) (py "sk-") = false).
Proof.
  apply (config_prompts_and_warning blank_world [] [] [] [] [] [] [] [] [] [] []).
  - vm_compute. reflexivity.
  - vm_compute. discriminate.
Defined.

Lemma config_starting_cash_not_empty_witness :
  ∃ w' doc v,
    create_env_file blank_world = (Ret tt, w') ∧
    fs w' !! py ".env" = Some (File doc) ∧
    value_of (py "STARTING_CASH") doc = Some v ∧ v ≠ [].
Proof.
  apply (config_starting_cash_not_empty blank_world [] [] [] [] [] [] [] [] [] [] []).
  - vm_compute. reflexivity.
  - vm_compute. discriminate.
Defined.

(** X2: with a directory in the place of the document, [create_env_file]
    raises [IsADirectoryError], and only after all ten prompts were
    answered; the file system is as before and no child was started. *)
Theorem config_directory_in_the_way w a1 a2 a3 a4 a5 a6 a7 a8 a9 a10 rest :
  read_lines 10 (stdin w)
    = Some ([a1; a2; a3; a4; a5; a6; a7; a8; a9; a10], rest) →
  fs w !! py ".env" = Some Dir →
  ∃ w',
    create_env_file w = (Raise (OSError IsADirectoryError), w') ∧
    fs w' = fs w ∧ spawned w' = spawned w ∧ stdin w' = rest ∧
    length (prompts (stdout w')) = (length (prompts (stdout w)) + 10)%nat.
Proof.
  destruct w as [h i o f s]. cbn [stdin fs spawned stdout].
  intros Hin Hdir.
  do 10 (apply read_lines_S in Hin as (? & ? & Hin)). injection Hin as ->.
  destruct (env_template_entries (strip a1) (strip a2) (strip a3) (strip a4)
              (strip a5) (str_or (strip a6) (py "1000"))
              (str_or (strip a7) []) (str_or (strip a8) [])
              (str_or (strip a9) []) (str_or (strip a10) []))
    as (doc & Hdoc & _).
  { repeat (apply List.Forall_cons;
              [solve [eauto using strip_LF_free, str_or_LF_free, read1_LF_free,
                        LF_free_nil, LF_free_1000]|]).
    constructor. }
  unfold env_kwargs in Hdoc. unfold create_env_file.
  destruct (startswith (strip a1) (py "sk-")) eqn:Hsk.
  - eexists. split.
    + repeat (eapply ends_bind; [run_prim | cbv beta zeta; world_norm]).
      rewrite Hdoc.
      eapply ends_bind; [run_prim | cbv beta zeta; world_norm].
      eapply bind_raise. apply write_file_on_dir. exact Hdir.
    + world_norm. do 3 (split; [reflexivity|]).
      unfold prompts. rewrite !omap_app, !length_app. cbn. lia.
  - eexists. split.
    + repeat (eapply ends_bind; [run_prim | cbv beta zeta; world_norm]).
      rewrite Hdoc.
      eapply ends_bind; [run_prim | cbv beta zeta; world_norm].
      eapply bind_raise. apply write_file_on_dir. exact Hdir.
    + world_norm. do 3 (split; [reflexivity|]).
      unfold prompts. rewrite !omap_app, !length_app. cbn. lia.
Qed.

Lemma config_directory_in_the_way_witness :
  ∃ w',
    create_env_file env_dir_world = (Raise (OSError IsADirectoryError), w') ∧
    fs w' = fs env_dir_world ∧ spawned w' = spawned env_dir_world ∧
    stdin w' = py "1" ++ nl ∧
    length (prompts (stdout w'))
      = (length (prompts (stdout env_dir_world)) + 10)%nat.
Proof.
  apply (config_directory_in_the_way env_dir_world [] [] [] [] [] [] [] [] [] []).
  - vm_compute. reflexivity.
  - vm_compute. reflexivity.
Defined.

(** X4: when no answer holds a line boundary inside, the document read
    back line by line gives the twenty-two pairs of the template, wherever
    the reader ends its lines: the ten prompted keys with the stripped
    answers (an optional key left blank has the empty value) and the
    twelve fixed ones. *)
Theorem config_document_round_trip w a1 a2 a3 a4 a5 a6 a7 a8 a9 a10 rest :
  read_lines 10 (stdin w)
    = Some ([a1; a2; a3; a4; a5; a6; a7; a8; a9; a10], rest) →
  fs w !! py ".env" ≠ Some Dir →
  forallb (fun a => no_linebreak (strip a))
    [a1; a2; a3; a4; a5; a6; a7; a8; a9; a10] = true →
  ∃ w' doc,
    create_env_file w = (Ret tt, w') ∧
    fs w' !! py ".env" = Some (File doc) ∧
    ∀ brk, line_ends brk →
      entries_at brk doc =
        [(py "OPENAI_API_KEY", strip a1);
         (py "ANTHROPIC_API_KEY", strip a2);
         (py "GROQ_API_KEY", strip a3);
         (py "ALPACA_API_KEY", strip a4);
         (py "ALPACA_SECRET_KEY", strip a5);
         (py "AI_PRIMARY_MODEL", py "gpt-4o");
         (py "AI_BACKUP_MODEL", py "gpt-4");
         (py "AI_RESEARCH_MODEL", py "o3-deep-research-2025-06-26");
         (py "PAPER_TRADING", py "true");
         (py "STARTING_CASH", str_or (strip a6) (py "1000"));
         (py "MAX_POSITION_PCT", py "0.15");
         (py "STOP_LOSS_PCT", py "0.15");
         (py "MAX_DAILY_LOSS", py "0.05");
         (py "SLACK_WEBHOOK", strip a7);
         (py "EMAIL_ALERTS", py "false");
         (py "EMAIL_FROM", strip a8);
         (py "EMAIL_TO", strip a9);
         (py "EMAIL_PASSWORD", strip a10);
         (py "MARKET_CAP_MAX", py "300000000");
         (py "MIN_VOLUME", py "50000");
         (py "TIMEZONE", py "US/Eastern");
         (py "DATA_DIR", py "data")].
Proof.
  intros Hin Henv Hplain.
  destruct (create_env_file_entries_at w _ _ _ _ _ _ _ _ _ _ _ Hin Henv Hplain)
    as (w' & doc & Hrun & Hfile & Hentries).
  exists w', doc. split; [exact Hrun|]. split; [exact Hfile|].
  intros brk Hbrk. exact (Hentries brk Hbrk).
Qed.

Lemma config_document_round_trip_witness :
  ∃ w' doc,
    create_env_file sample_world = (Ret tt, w') ∧
    fs w' !! py ".env" = Some (File doc) ∧
    ∀ brk, line_ends brk →
      entries_at brk doc =
        [(py "OPENAI_API_KEY", strip (py "sk-abc"));
         (py "ANTHROPIC_API_KEY", strip (py "ant"));
         (py "GROQ_API_KEY", strip (py "gsk"));
         (py "ALPACA_API_KEY", strip (py " AK1 "));
         (py "ALPACA_SECRET_KEY", strip (py "SECRET"));
         (py "AI_PRIMARY_MODEL", py "gpt-4o");
         (py "AI_BACKUP_MODEL", py "gpt-4");
         (py "AI_RESEARCH_MODEL", py "o3-deep-research-2025-06-26");
         (py "PAPER_TRADING", py "true");
         (py "STARTING_CASH", str_or (strip (py " 500 ")) (py "1000"));
         (py "MAX_POSITION_PCT", py "0.15");
         (py "STOP_LOSS_PCT", py "0.15");
         (py "MAX_DAILY_LOSS", py "0.05");
         (py "SLACK_WEBHOOK", strip (py "https://hooks.example/x"));
         (py "EMAIL_ALERTS", py "false");
         (py "EMAIL_FROM", strip (py "from@example.org"));
         (py "EMAIL_TO", strip (py "to@example.org"));
         (py "EMAIL_PASSWORD", strip (py "pw"));
         (py "MARKET_CAP_MAX", py "300000000");
         (py "MIN_VOLUME", py "50000");
         (py "TIMEZONE", py "US/Eastern");
         (py "DATA_DIR", py "data")].
Proof.
  apply (config_document_round_trip sample_world
           (py "sk-abc") (py "ant") (py "gsk") (py " AK1 ") (py "SECRET")
           (py " 500 ") (py "https://hooks.example/x")
           (py "from@example.org") (py "to@example.org") (py "pw")
           (py "1" ++ nl)).
  - vm_compute. reflexivity.
  - vm_compute. discriminate.
  - vm_compute. reflexivity.
Defined.

(** * Further properties of the stages *)

(** The version check on a supported interpreter, for the runs of [main]. *)
Lemma check_python_version_new w major minor :
  version_info (host w) = (major, minor) →
  3 < major ∨ (major = 3 ∧ 9 ≤ minor) →
  check_python_version w =
    (Ret tt,
     mkWorld (host w) (stdin w)
       (stdout w ++
        [Printed (py "✅ Python " ++ str_of_Z major ++ py "." ++ str_of_Z minor
                  ++ py " detected")])
       (fs w) (spawned w)).
Proof.
  intros Hv Hnew.
  assert (version_lt_3_9 (major, minor) = false) as Hlt.
  { destruct (version_lt_3_9 (major, minor)) eqn:E; [|done].
    apply version_lt_3_9_spec in E. lia. }
  destruct w as [h i o f s]. cbn [host] in Hv.
  unfold check_python_version. eval_stage. rewrite Hv, Hlt. by eval_stage.
Qed.

(** X7: on Python 3.9 or later the version check returns, having printed
    the version it found and nothing else; 3.9 itself passes. *)
Theorem supported_python_passes w major minor :
  version_info (host w) = (major, minor) →
  3 < major ∨ (major = 3 ∧ 9 ≤ minor) →
  check_python_version w =
    (Ret tt,
     mkWorld (host w) (stdin w)
       (stdout w ++
        [Printed (py "✅ Python " ++ str_of_Z major ++ py "." ++ str_of_Z minor
                  ++ py " detected")])
       (fs w) (spawned w)).
Proof.
  intros Hv Hnew.
  assert (version_lt_3_9 (major, minor) = false) as Hlt.
  { destruct (version_lt_3_9 (major, minor)) eqn:E; [|done].
    apply version_lt_3_9_spec in E. lia. }
  destruct w as [h i o f s]. cbn [host] in Hv.
  unfold check_python_version. eval_stage. rewrite Hv, Hlt. by eval_stage.
Qed.

Lemma supported_python_passes_witness :
  check_python_version (mkWorld (sample_host all_succeed) [] [] ∅ []) =
    (Ret tt,
     mkWorld (sample_host all_succeed) []
       ([] ++
        [Printed (py "✅ Python " ++ str_of_Z 3 ++ py "." ++ str_of_Z 11
                  ++ py " detected")])
       ∅ []).
Proof.
  apply (supported_python_passes (mkWorld (sample_host all_succeed) [] [] ∅ []) 3 11).
  - reflexivity.
  - right. lia.
Defined.

(** The installation stage with a package manager that succeeds, for the
    runs of [main]. *)
Lemma install_dependencies_ok w el out err :
  child (host w) (pip_install (sys_executable (host w))) = Exits el 0 out err →
  install_dependencies w =
    (Ret tt,
     mkWorld (host w) (stdin w)
       (stdout w ++
        [Printed (nl ++ py "📦 INSTALLING DEPENDENCIES");
         Printed (str_mul (py "=") 40);
         Printed (py "✅ Dependencies installed successfully")])
       (fs w)
       (spawned w ++ [pip_install (sys_executable (host w))])).
Proof.
  intros Hchild. destruct w as [h i o f s]. cbn [host] in Hchild.
  unfold install_dependencies. eval_stage. rewrite Hchild. eval_stage.
  rewrite Z.eqb_refl. by rewrite <- !app_assoc.
Qed.

(** X8: when the package manager exits with status 0, the installation
    stage returns, having started that one child and printed the success
    line; the file system is as before. *)
Theorem install_success w el out err :
  child (host w) (pip_install (sys_executable (host w))) = Exits el 0 out err →
  install_dependencies w =
    (Ret tt,
     mkWorld (host w) (stdin w)
       (stdout w ++
        [Printed (nl ++ py "📦 INSTALLING DEPENDENCIES");
         Printed (str_mul (py "=") 40);
         Printed (py "✅ Dependencies installed successfully")])
       (fs w)
       (spawned w ++ [pip_install (sys_executable (host w))])).
Proof.
  intros Hchild. destruct w as [h i o f s]. cbn [host] in Hchild.
  unfold install_dependencies. eval_stage. rewrite Hchild. eval_stage.
  rewrite Z.eqb_refl. by rewrite <- !app_assoc.
Qed.

Lemma install_success_witness :
  install_dependencies sample_world =
    (Ret tt,
     mkWorld (host sample_world) (stdin sample_world)
       (stdout sample_world ++
        [Printed (nl ++ py "📦 INSTALLING DEPENDENCIES");
         Printed (str_mul (py "=") 40);
         Printed (py "✅ Dependencies installed successfully")])
       (fs sample_world)
       (spawned sample_world ++ [pip_install (sys_executable (host sample_world))])).
Proof. apply (install_success sample_world 1 [] []). reflexivity. Defined.

(** X9: when the child of the installation stage cannot be started, the
    [OSError] is not handled there: the stage raises it, without the
    report and the [sys.exit(1)] of a failed installation. *)
Theorem install_unstartable_raises w k :
  child (host w) (pip_install (sys_executable (host w))) = NoSpawn k →
  install_dependencies w =
    (Raise (OSError k),
     mkWorld (host w) (stdin w)
       (stdout w ++
        [Printed (nl ++ py "📦 INSTALLING DEPENDENCIES");
         Printed (str_mul (py "=") 40)])
       (fs w)
       (spawned w ++ [pip_install (sys_executable (host w))])).
Proof.
  intros Hchild. destruct w as [h i o f s]. cbn [host] in Hchild.
  unfold install_dependencies. eval_stage. rewrite Hchild. eval_stage.
  by rewrite <- !app_assoc.
Qed.

Lemma install_unstartable_raises_witness :
  install_dependencies no_python_world =
    (Raise (OSError PermissionError),
     mkWorld (host no_python_world) (stdin no_python_world)
       (stdout no_python_world ++
        [Printed (nl ++ py "📦 INSTALLING DEPENDENCIES");
         Printed (str_mul (py "=") 40)])
       (fs no_python_world)
       (spawned no_python_world
        ++ [pip_install (sys_executable (host no_python_world))])).
Proof.
  apply (install_unstartable_raises no_python_world PermissionError).
  vm_compute. reflexivity.
Defined.

(** X10: whatever its child does, the installation stage reads no input,
    leaves the file system alone and starts exactly one child,
    [pip install -r requirements.txt] under the running interpreter. *)
Theorem install_spawns_pip_only w :
  fs (after install_dependencies w) = fs w ∧
  stdin (after install_dependencies w) = stdin w ∧
  spawned (after install_dependencies w)
    = spawned w ++ [[sys_executable (host w); py "-m"; py "pip"; py "install";
                     py "-r"; py "requirements.txt"]].
Proof.
  destruct w as [h i o f s]. unfold after, install_dependencies. eval_stage.
  fold (pip_install (sys_executable h)).
  destruct (child h (pip_install (sys_executable h))) as [el rc out err|k];
    eval_stage; [|done].
  destruct (rc =? 0); by eval_stage.
Qed.

(** What the smoke test leaves alone, for the runs of [main]. *)
Lemma run_tests_frame w :
  ∃ w',
    run_tests w = (Ret tt, w') ∧
    fs w' = fs w ∧ stdin w' = stdin w ∧ host w' = host w ∧
    spawned w' = spawned w ++ [[sys_executable (host w); py "tests/test_ai_only.py"]].
Proof.
  destruct w as [h i o f s]. unfold run_tests. eval_stage.
  fold (smoke_test (sys_executable h)).
  destruct (child h (smoke_test (sys_executable h))) as [el rc out err|k].
  - destruct (60 <? el)%N; eval_stage; [by eexists|].
    destruct (rc =? 0); eval_stage; by eexists.
  - eval_stage. by eexists.
Qed.

(** X11: the smoke test returns whatever its child does, also when the
    child cannot be started: it never raises and never exits; it reads no
    input, leaves the file system alone and starts exactly one child. *)
Theorem smoke_test_always_returns w :
  ∃ w',
    run_tests w = (Ret tt, w') ∧
    fs w' = fs w ∧ stdin w' = stdin w ∧ host w' = host w ∧
    spawned w' = spawned w ++ [[sys_executable (host w); py "tests/test_ai_only.py"]].
Proof.
  destruct w as [h i o f s]. unfold run_tests. eval_stage.
  fold (smoke_test (sys_executable h)).
  destruct (child h (smoke_test (sys_executable h))) as [el rc out err|k].
  - destruct (60 <? el)%N; eval_stage; [by eexists|].
    destruct (rc =? 0); eval_stage; by eexists.
  - eval_stage. by eexists.
Qed.

(** X12: a smoke test that exits with status 0 within the 60 seconds is
    reported as passed, with no warning. *)
Theorem smoke_test_pass w el out err :
  child (host w) (smoke_test (sys_executable (host w))) = Exits el 0 out err →
  (el ≤ 60)%N →
  run_tests w =
    (Ret tt,
     mkWorld (host w) (stdin w)
       (stdout w ++
        [Printed (nl ++ py "🧪 RUNNING TESTS"); Printed (str_mul (py "=") 40);
         Printed (py "✅ AI connection test passed")])
       (fs w)
       (spawned w ++ [smoke_test (sys_executable (host w))])).
Proof.
  intros Hchild Hel. destruct w as [h i o f s]. cbn [host] in Hchild.
  apply N.ltb_ge in Hel.
  unfold run_tests. eval_stage. rewrite Hchild, Hel. eval_stage.
  rewrite Z.eqb_refl. by rewrite <- !app_assoc.
Qed.

Lemma smoke_test_pass_witness :
  run_tests sample_world =
    (Ret tt,
     mkWorld (host sample_world) (stdin sample_world)
       (stdout sample_world ++
        [Printed (nl ++ py "🧪 RUNNING TESTS"); Printed (str_mul (py "=") 40);
         Printed (py "✅ AI connection test passed")])
       (fs sample_world)
       (spawned sample_world ++ [smoke_test (sys_executable (host sample_world))])).
Proof.
  apply (smoke_test_pass sample_world 1 [] []).
  - reflexivity.
  - vm_compute. discriminate.
Defined.

(** X13: a smoke test that cannot be started is a warning as well: the
    stage prints the text of the exception and returns. *)
Theorem smoke_test_unstartable_warns w k :
  child (host w) (smoke_test (sys_executable (host w))) = NoSpawn k →
  run_tests w =
    (Ret tt,
     mkWorld (host w) (stdin w)
       (stdout w ++
        [Printed (nl ++ py "🧪 RUNNING TESTS"); Printed (str_mul (py "=") 40);
         Printed (py "⚠️  Test failed: " ++ exc_str (host w) (OSError k))])
       (fs w)
       (spawned w ++ [smoke_test (sys_executable (host w))])).
Proof.
  intros Hchild. destruct w as [h i o f s]. cbn [host] in Hchild.
  unfold run_tests. eval_stage. rewrite Hchild. eval_stage.
  by rewrite <- !app_assoc.
Qed.

Lemma smoke_test_unstartable_warns_witness :
  run_tests no_python_world =
    (Ret tt,
     mkWorld (host no_python_world) (stdin no_python_world)
       (stdout no_python_world ++
        [Printed (nl ++ py "🧪 RUNNING TESTS"); Printed (str_mul (py "=") 40);
         Printed (py "⚠️  Test failed: "
                  ++ exc_str (host no_python_world) (OSError PermissionError))])
       (fs no_python_world)
       (spawned no_python_world
        ++ [smoke_test (sys_executable (host no_python_world))])).
Proof.
  apply (smoke_test_unstartable_warns no_python_world PermissionError).
  vm_compute. reflexivity.
Defined.

(** * Further properties of the deployment strategies *)

(** X14: with a working container engine the strategy runs the probe, the
    build and the container, in this order and nothing else; the container
    is started detached under a fixed name, with the document as its
    environment file and the [data] directory of the working directory
    mounted.  The file system is left alone. *)
Theorem docker_success w e1 o1 r1 e2 o2 r2 e3 o3 r3 :
  child (host w) docker_probe = Exits e1 0 o1 r1 →
  child (host w) docker_build = Exits e2 0 o2 r2 →
  child (host w) (docker_run (getcwd (host w))) = Exits e3 0 o3 r3 →
  deploy_docker w =
    (Ret tt,
     mkWorld (host w) (stdin w)
       (stdout w ++
        [Printed (nl ++ py "🐳 DOCKER DEPLOYMENT");
         Printed (str_mul (py "=") 40);
         Printed (py "✅ Docker detected");
         Printed (py "✅ Docker image built");
         Printed (py "✅ Docker container started")])
       (fs w)
       (spawned w ++
        [[py "docker"; py "--version"];
         [py "docker"; py "build"; py "-t"; py "microcap-quant"; py "."];
         [py "docker"; py "run"; py "-d"; py "--name"; py "microcap-quant-bot";
          py "--env-file"; py ".env";
          py "-v"; getcwd (host w) ++ py "/data:/app/data";
          py "microcap-quant"]])).
Proof.
  intros Hp Hb Hr. destruct w as [h i o f s]. cbn [host] in *.
  fold docker_probe. fold docker_build. fold (docker_run (getcwd h)).
  unfold deploy_docker. eval_stage.
  rewrite Hp. eval_stage. rewrite Z.eqb_refl.
  rewrite Hb. eval_stage. rewrite Z.eqb_refl.
  rewrite Hr. eval_stage. rewrite Z.eqb_refl.
  by rewrite <- !app_assoc.
Qed.

Lemma docker_success_witness :
  deploy_docker docker_world =
    (Ret tt,
     mkWorld (host docker_world) (stdin docker_world)
       (stdout docker_world ++
        [Printed (nl ++ py "🐳 DOCKER DEPLOYMENT");
         Printed (str_mul (py "=") 40);
         Printed (py "✅ Docker detected");
         Printed (py "✅ Docker image built");
         Printed (py "✅ Docker container started")])
       (fs docker_world)
       (spawned docker_world ++
        [[py "docker"; py "--version"];
         [py "docker"; py "build"; py "-t"; py "microcap-quant"; py "."];
         [py "docker"; py "run"; py "-d"; py "--name"; py "microcap-quant-bot";
          py "--env-file"; py ".env";
          py "-v"; getcwd (host docker_world) ++ py "/data:/app/data";
          py "microcap-quant"]])).
Proof.
  apply (docker_success docker_world 1 [] [] 1 [] [] 1 [] []); reflexivity.
Defined.

(** X15: when the build exits with a non-zero status the strategy reports
    the failure and returns; the container is not started. *)
Theorem docker_build_failure_stops w e1 o1 r1 e2 rc o2 r2 :
  child (host w) docker_probe = Exits e1 0 o1 r1 →
  child (host w) docker_build = Exits e2 rc o2 r2 →
  rc ≠ 0 →
  deploy_docker w =
    (Ret tt,
     mkWorld (host w) (stdin w)
       (stdout w ++
        [Printed (nl ++ py "🐳 DOCKER DEPLOYMENT");
         Printed (str_mul (py "=") 40);
         Printed (py "✅ Docker detected");
         Printed (py "❌ Docker not available or failed");
         Printed (py "Install Docker from https://docker.com")])
       (fs w)
       (spawned w ++ [docker_probe; docker_build])).
Proof.
  intros Hp Hb Hrc. destruct w as [h i o f s]. cbn [host] in *.
  apply Z.eqb_neq in Hrc.
  unfold deploy_docker. eval_stage.
  rewrite Hp. eval_stage. rewrite Z.eqb_refl.
  rewrite Hb. eval_stage. rewrite Hrc.
  by rewrite <- !app_assoc.
Qed.

Lemma docker_build_failure_stops_witness :
  deploy_docker (with_child docker_build_fails docker_world) =
    (Ret tt,
     mkWorld (host (with_child docker_build_fails docker_world))
       (stdin (with_child docker_build_fails docker_world))
       (stdout (with_child docker_build_fails docker_world) ++
        [Printed (nl ++ py "🐳 DOCKER DEPLOYMENT");
         Printed (str_mul (py "=") 40);
         Printed (py "✅ Docker detected");
         Printed (py "❌ Docker not available or failed");
         Printed (py "Install Docker from https://docker.com")])
       (fs (with_child docker_build_fails docker_world))
       (spawned (with_child docker_build_fails docker_world)
        ++ [docker_probe; docker_build])).
Proof.
  apply (docker_build_failure_stops (with_child docker_build_fails docker_world)
           1 [] [] 40 1 [] (py "no Dockerfile")).
  - vm_compute. reflexivity.
  - vm_compute. reflexivity.
  - lia.
Defined.

(** X16: whatever the container engine does, the strategy never calls
    [sys.exit], writes no file and reads no input.  It starts the probe,
    then the build, then the container, each only once the one before has
    exited with status 0: the children are these three up to the first
    that fails or cannot be started, that one included, and all three
    when none fails. *)
Theorem docker_never_exits_nor_writes w :
  (∀ st, (deploy_docker w).1 ≠ Exit st) ∧
  fs (after deploy_docker w) = fs w ∧
  stdin (after deploy_docker w) = stdin w ∧
  spawned (after deploy_docker w) =
    spawned w ++ upto_first_failure (host w)
                   [docker_probe; docker_build; docker_run (getcwd (host w))].
Proof.
  destruct w as [h i o f s]. unfold after. cbn [host stdin fs spawned].
  cbn [upto_first_failure]. unfold succeeded, deploy_docker. eval_stage.
  destruct (child h docker_probe) as [e1 rc1 o1 r1|k1]; eval_stage;
    [|by repeat split].
  destruct (rc1 =? 0); eval_stage; [|by repeat split].
  destruct (child h docker_build) as [e2 rc2 o2 r2|k2]; eval_stage;
    [|cbn [fst snd]; rewrite <- ?app_assoc; by repeat split].
  destruct (rc2 =? 0); eval_stage;
    [|cbn [fst snd]; rewrite <- ?app_assoc; by repeat split].
  destruct (child h (docker_run (getcwd h))) as [e3 rc3 o3 r3|k3]; eval_stage;
    [|cbn [fst snd]; rewrite <- ?app_assoc; by repeat split].
  destruct (rc3 =? 0); eval_stage;
    cbn [fst snd]; rewrite <- ?app_assoc; by repeat split.
Qed.

(** ** The host-service strategy *)

Lemma service_template_entries user cwd :
  LF_free user → LF_free cwd →
  ∃ doc,
    format service_template [(py "user", user); (py "cwd", cwd)] = inr doc ∧
    entries doc = service_entries user cwd.
Proof.
  intros Hu Hc.
  assert (∃ doc, format service_template
            [(py "user", user); (py "cwd", cwd)] = inr doc) as [doc Hdoc].
  { eexists. vm_compute. reflexivity. }
  exists doc. split; [exact Hdoc|].
  assert (Forall (λ kv, LF_free kv.2) [(py "user", user); (py "cwd", cwd)]) as Hkw
    by (repeat (constructor; [assumption|]); constructor).
  destruct (formatter_parser service_template) as [ps|] eqn:Hps;
    [|vm_compute in Hps; discriminate Hps].
  rewrite (entries_format _ ps _ _ Hps Hkw Hdoc).
  vm_compute in Hps. injection Hps as <-. vm_compute. reflexivity.
Qed.

(** The effect of [deploy_local], shared by the properties below. *)
Lemma deploy_local_effect w :
  LF_free (str_of_opt (getenv_USER (host w))) →
  LF_free (getcwd (host w)) →
  fs w !! py "microcap-quant.service" ≠ Some Dir →
  ∃ w' doc,
    deploy_local w = (Ret tt, w') ∧
    fs w' !! py "microcap-quant.service" = Some (File doc) ∧
    (∀ p, p ≠ py "microcap-quant.service" → fs w' !! p = fs w !! p) ∧
    entries doc =
      service_entries (str_of_opt (getenv_USER (host w))) (getcwd (host w)) ∧
    spawned w' = spawned w ∧ stdin w' = stdin w.
Proof.
  destruct w as [h i o f s]. cbn [host fs spawned stdin]. intros Hu Hc Hd.
  destruct (service_template_entries _ _ Hu Hc) as (doc & Hdoc & Hentries).
  eexists _, doc. split.
  { as_runs. unfold deploy_local. repeat run_step. rewrite Hdoc.
    repeat run_step. }
  world_norm. rewrite lookup_insert_eq. split; [reflexivity|].
  split; [|by repeat split].
  intros p Hp. by rewrite lookup_insert_ne.
Qed.

(** X17: the host-service strategy writes the unit file and nothing else:
    no child is started (the service manager is not called), no input is
    read, the other entries of the file system stay.  Read back line by
    line, the unit file names the user of the environment, the working
    directory and the interpreter of the virtual environment under it. *)
Theorem local_writes_unit_only w :
  LF_free (str_of_opt (getenv_USER (host w))) →
  LF_free (getcwd (host w)) →
  fs w !! py "microcap-quant.service" ≠ Some Dir →
  ∃ w' doc,
    deploy_local w = (Ret tt, w') ∧
    fs w' !! py "microcap-quant.service" = Some (File doc) ∧
    (∀ p, p ≠ py "microcap-quant.service" → fs w' !! p = fs w !! p) ∧
    entries doc =
      service_entries (str_of_opt (getenv_USER (host w))) (getcwd (host w)) ∧
    spawned w' = spawned w ∧ stdin w' = stdin w.
Proof.
  destruct w as [h i o f s]. cbn [host fs spawned stdin]. intros Hu Hc Hd.
  destruct (service_template_entries _ _ Hu Hc) as (doc & Hdoc & Hentries).
  eexists _, doc. split.
  { as_runs. unfold deploy_local. repeat run_step. rewrite Hdoc.
    repeat run_step. }
  world_norm. rewrite lookup_insert_eq. split; [reflexivity|].
  split; [|by repeat split].
  intros p Hp. by rewrite lookup_insert_ne.
Qed.

Lemma local_writes_unit_only_witness :
  ∃ w' doc,
    deploy_local sample_world = (Ret tt, w') ∧
    fs w' !! py "microcap-quant.service" = Some (File doc) ∧
    (∀ p, p ≠ py "microcap-quant.service" → fs w' !! p = fs sample_world !! p) ∧
    entries doc =
      service_entries (str_of_opt (getenv_USER (host sample_world)))
        (getcwd (host sample_world)) ∧
    spawned w' = spawned sample_world ∧ stdin w' = stdin sample_world.
Proof.
  apply (local_writes_unit_only sample_world).
  - vm_compute. repeat constructor; discriminate.
  - vm_compute. repeat constructor; discriminate.
  - vm_compute. discriminate.
Defined.

(** X18: with no [USER] in the environment the unit file is written all
    the same, with the user [None]. *)
Theorem local_without_user w :
  getenv_USER (host w) = None →
  LF_free (getcwd (host w)) →
  fs w !! py "microcap-quant.service" ≠ Some Dir →
  ∃ w' doc,
    deploy_local w = (Ret tt, w') ∧
    fs w' !! py "microcap-quant.service" = Some (File doc) ∧
    value_of (py "User") doc = Some (py "None").
Proof.
  intros Hu Hc Hd.
  destruct (deploy_local_effect w) as (w' & doc & Hrun & Hfile & _ & He & _);
    [rewrite Hu; vm_compute; repeat constructor; discriminate|done|done|].
  exists w', doc. split; [exact Hrun|]. split; [exact Hfile|].
  unfold value_of. rewrite He, Hu. generalize (getcwd (host w)). intros cwd.
  vm_compute. reflexivity.
Qed.

Lemma local_without_user_witness :
  ∃ w' doc,
    deploy_local no_user_world = (Ret tt, w') ∧
    fs w' !! py "microcap-quant.service" = Some (File doc) ∧
    value_of (py "User") doc = Some (py "None").
Proof.
  apply (local_without_user no_user_world).
  - reflexivity.
  - vm_compute. repeat constructor; discriminate.
  - vm_compute. discriminate.
Defined.

(** ** The managed-platform strategies and the dispatcher *)

(** The two managed-platform strategies, for the runs of [main]. *)
Lemma deploy_railway_render_print w :
  (∃ new, deploy_railway w = (Ret tt, set_stdout (stdout w ++ new) w)) ∧
  (∃ new, deploy_render w = (Ret tt, set_stdout (stdout w ++ new) w)).
Proof.
  destruct w as [h i o f s]. split.
  - unfold deploy_railway. only_prints.
  - unfold deploy_render. only_prints.
Qed.

(** X19: the two managed-platform strategies only print: they return in
    the world they started in but for the lines added to the output. *)
Theorem managed_platforms_only_print w :
  (∃ new, deploy_railway w = (Ret tt, set_stdout (stdout w ++ new) w)) ∧
  (∃ new, deploy_render w = (Ret tt, set_stdout (stdout w ++ new) w)).
Proof.
  destruct w as [h i o f s]. split.
  - unfold deploy_railway. only_prints.
  - unfold deploy_render. only_prints.
Qed.

Lemma bind_step {A B} (m : M A) (f : A → M B) w a w1 x :
  runs m w a w1 → f a w1 = x → (m ≫= f) w = x.
Proof. unfold runs, mbind, M_bind. by intros -> <-. Qed.

Lemma dispatch_after_menu w l rest :
  read1 (stdin w) = Some (l, rest) →
  show_deployment_options w =
    (if str_eqb (strip l) (py "1") then deploy_railway
     else if str_eqb (strip l) (py "2") then deploy_render
     else if str_eqb (strip l) (py "3") then deploy_docker
     else if str_eqb (strip l) (py "4") then deploy_local
     else print (py "Invalid choice. Exiting.")) (chosen w rest).
Proof.
  destruct w as [h i o f s]. cbn [stdin]. intros Hin.
  unfold show_deployment_options, chosen, menu.
  repeat (eapply bind_step; [run_prim | cbv beta zeta; world_norm]).
  by rewrite <- !app_assoc.
Qed.

(** X20: the dispatcher prints the menu, takes one line off the input
    and hands over to the strategy of the choice, read with surrounding
    whitespace stripped: [1] Railway, [2] Render, [3] container, [4] host
    service.  The outcome of the dispatcher is the outcome of that
    strategy. *)
Theorem dispatcher_delegates w l rest :
  read1 (stdin w) = Some (l, rest) →
  (strip l = py "1" → show_deployment_options w = deploy_railway (chosen w rest)) ∧
  (strip l = py "2" → show_deployment_options w = deploy_render (chosen w rest)) ∧
  (strip l = py "3" → show_deployment_options w = deploy_docker (chosen w rest)) ∧
  (strip l = py "4" → show_deployment_options w = deploy_local (chosen w rest)).
Proof.
  intros Hin. rewrite (dispatch_after_menu w l rest Hin).
  repeat split; intros ->; reflexivity.
Qed.

Lemma dispatcher_delegates_witness :
  (strip (py " 3 ") = py "1" →
   show_deployment_options (mkWorld (sample_host all_succeed) (py " 3 " ++ nl) [] ∅ [])
   = deploy_railway (chosen (mkWorld (sample_host all_succeed) (py " 3 " ++ nl) [] ∅ []) [])) ∧
  (strip (py " 3 ") = py "2" →
   show_deployment_options (mkWorld (sample_host all_succeed) (py " 3 " ++ nl) [] ∅ [])
   = deploy_render (chosen (mkWorld (sample_host all_succeed) (py " 3 " ++ nl) [] ∅ []) [])) ∧
  (strip (py " 3 ") = py "3" →
   show_deployment_options (mkWorld (sample_host all_succeed) (py " 3 " ++ nl) [] ∅ [])
   = deploy_docker (chosen (mkWorld (sample_host all_succeed) (py " 3 " ++ nl) [] ∅ []) [])) ∧
  (strip (py " 3 ") = py "4" →
   show_deployment_options (mkWorld (sample_host all_succeed) (py " 3 " ++ nl) [] ∅ [])
   = deploy_local (chosen (mkWorld (sample_host all_succeed) (py " 3 " ++ nl) [] ∅ []) [])).
Proof.
  apply (dispatcher_delegates
           (mkWorld (sample_host all_succeed) (py " 3 " ++ nl) [] ∅ [])
           (py " 3 ") []).
  vm_compute. reflexivity.
Defined.

(** X21: when the input has ended before the choice, the dispatcher
    raises [EOFError] after the menu: no strategy runs. *)
Theorem dispatcher_eof w :
  read1 (stdin w) = None →
  show_deployment_options w =
    (Raise EOFError,
     mkWorld (host w) (stdin w) (stdout w ++ menu) (fs w) (spawned w)).
Proof.
  destruct w as [h i o f s]. cbn [stdin host stdout fs spawned]. intros Hin.
  unfold show_deployment_options, menu.
  repeat (eapply bind_step; [run_prim | cbv beta zeta; world_norm]).
  erewrite bind_raise; [|apply input_eof; exact Hin].
  world_norm. by rewrite <- !app_assoc.
Qed.

Lemma dispatcher_eof_witness :
  show_deployment_options blank_world_end =
    (Raise EOFError,
     mkWorld (host blank_world_end) (stdin blank_world_end)
       (stdout blank_world_end ++ menu) (fs blank_world_end)
       (spawned blank_world_end)).
Proof. apply (dispatcher_eof blank_world_end). reflexivity. Defined.

(** * Further properties of directory provisioning *)

Lemma set_fs_same w : set_fs (fs w) w = w.
Proof. by destruct w. Qed.

(** Making a directory where no regular file stands and the parent is the
    working directory. *)
Lemma Path_mkdir_plain d w :
  dirname d = None → (∀ c, fs w !! d ≠ Some (File c)) →
  Path_mkdir d true w = (Ret tt, set_fs (<[d := Dir]> (fs w)) w).
Proof.
  intros Hd Hfile. unfold Path_mkdir, parent_check. rewrite Hd.
  destruct (fs w !! d) as [[|c]|] eqn:E.
  - by rewrite (insert_id _ _ _ E), set_fs_same.
  - by destruct (Hfile c).
  - done.
Qed.

Lemma Path_mkdir_keeps d w p x :
  fs w !! p = Some x → fs (Path_mkdir d true w).2 !! p = Some x.
Proof.
  intros Hp. unfold Path_mkdir.
  destruct (fs w !! d) as [[|c]|] eqn:E; [done|done|].
  destruct (parent_check (fs w) d); [done|]. cbn [snd fs set_fs].
  rewrite lookup_insert_ne; [done|]. intros ->. congruence.
Qed.

Lemma mkdir_each_keeps ds w p x :
  fs w !! p = Some x → fs (after (mkdir_each ds) w) !! p = Some x.
Proof.
  unfold after. revert w. induction ds as [|d ds IH]; intros w Hp; [done|].
  rewrite mkdir_each_cons.
  pose proof (Path_mkdir_keeps d w p x Hp) as Hk.
  destruct (Path_mkdir d true w) as [[[]|st|e] w1]; [|done|done].
  by apply IH.
Qed.

(** X22: directory provisioning never removes an entry of the file
    system and never replaces one: what was at a path before is there
    after, for any list of paths and for [create_directories]. *)
Theorem provisioning_keeps_entries ds w p x :
  fs w !! p = Some x →
  fs (after (mkdir_each ds) w) !! p = Some x ∧
  fs (after create_directories w) !! p = Some x.
Proof.
  intros Hp. split; [by apply mkdir_each_keeps|].
  unfold after. rewrite create_directories_unfold.
  by apply (mkdir_each_keeps [py "data"; py "logs"; py "reports"]).
Qed.

Lemma provisioning_keeps_entries_witness :
  fs (after (mkdir_each [py "logs"; py "var"]) logs_taken_world) !! py "logs"
    = Some (File (py "old log")) ∧
  fs (after create_directories logs_taken_world) !! py "logs"
    = Some (File (py "old log")).
Proof.
  apply (provisioning_keeps_entries [py "logs"; py "var"] logs_taken_world).
  vm_compute. reflexivity.
Defined.

Lemma three_names_differ :
  py "data" ≠ py "logs" ∧ py "data" ≠ py "reports" ∧ py "logs" ≠ py "reports" ∧
  py ".env" ≠ py "data" ∧ py ".env" ≠ py "logs" ∧ py ".env" ≠ py "reports".
Proof. vm_compute. repeat split; discriminate. Qed.

Lemma three_names_plain :
  dirname (py "data") = None ∧ dirname (py "logs") = None ∧
  dirname (py "reports") = None.
Proof. vm_compute. repeat split. Qed.

(** The effect of [create_directories] when nothing is in the way, for the
    runs of [main]. *)
Lemma create_directories_effect w :
  (∀ c, fs w !! py "data" ≠ Some (File c)) →
  (∀ c, fs w !! py "logs" ≠ Some (File c)) →
  (∀ c, fs w !! py "reports" ≠ Some (File c)) →
  create_directories w =
    (Ret tt,
     mkWorld (host w) (stdin w)
       (stdout w ++
        [Printed (nl ++ py "📁 CREATING DIRECTORIES");
         Printed (str_mul (py "=") 40);
         Printed (py "✅ Created " ++ py "data" ++ py "/");
         Printed (py "✅ Created " ++ py "logs" ++ py "/");
         Printed (py "✅ Created " ++ py "reports" ++ py "/")])
       (<[py "reports" := Dir]>
          (<[py "logs" := Dir]> (<[py "data" := Dir]> (fs w))))
       (spawned w)).
Proof.
  intros Hdata Hlogs Hreports.
  destruct three_names_differ as (Hdl & Hdr & Hlr & _).
  destruct three_names_plain as (Pd & Pl & Pr).
  destruct w as [h i o f s]. cbn [fs] in *.
  rewrite create_directories_unfold. world_norm.
  rewrite mkdir_each_cons, Path_mkdir_plain by done. world_norm.
  rewrite mkdir_each_cons, Path_mkdir_plain;
    [|exact Pl|cbn [fs]; intros c; by rewrite lookup_insert_ne]. world_norm.
  rewrite mkdir_each_cons, Path_mkdir_plain;
    [|exact Pr|cbn [fs]; intros c; by rewrite !lookup_insert_ne]. world_norm.
  unfold mkdir_each. cbn [for_each]. unfold mret, M_ret.
  by rewrite <- !app_assoc.
Qed.

(** X23: when none of [data], [logs], [reports] is a regular file,
    [create_directories] returns with the three of them directories and
    the rest of the file system as before; each is reported as created,
    also one that was there already.  No input is read, no child
    started. *)
Theorem directories_made w :
  (∀ c, fs w !! py "data" ≠ Some (File c)) →
  (∀ c, fs w !! py "logs" ≠ Some (File c)) →
  (∀ c, fs w !! py "reports" ≠ Some (File c)) →
  create_directories w =
    (Ret tt,
     mkWorld (host w) (stdin w)
       (stdout w ++
        [Printed (nl ++ py "📁 CREATING DIRECTORIES");
         Printed (str_mul (py "=") 40);
         Printed (py "✅ Created " ++ py "data" ++ py "/");
         Printed (py "✅ Created " ++ py "logs" ++ py "/");
         Printed (py "✅ Created " ++ py "reports" ++ py "/")])
       (<[py "reports" := Dir]>
          (<[py "logs" := Dir]> (<[py "data" := Dir]> (fs w))))
       (spawned w)).
Proof.
  intros Hdata Hlogs Hreports.
  destruct three_names_differ as (Hdl & Hdr & Hlr & _).
  destruct three_names_plain as (Pd & Pl & Pr).
  destruct w as [h i o f s]. cbn [fs] in *.
  rewrite create_directories_unfold. world_norm.
  rewrite mkdir_each_cons, Path_mkdir_plain by done. world_norm.
  rewrite mkdir_each_cons, Path_mkdir_plain;
    [|exact Pl|cbn [fs]; intros c; by rewrite lookup_insert_ne]. world_norm.
  rewrite mkdir_each_cons, Path_mkdir_plain;
    [|exact Pr|cbn [fs]; intros c; by rewrite !lookup_insert_ne]. world_norm.
  unfold mkdir_each. cbn [for_each]. unfold mret, M_ret.
  by rewrite <- !app_assoc.
Qed.

Lemma directories_made_witness :
  create_directories sample_world =
    (Ret tt,
     mkWorld (host sample_world) (stdin sample_world)
       (stdout sample_world ++
        [Printed (nl ++ py "📁 CREATING DIRECTORIES");
         Printed (str_mul (py "=") 40);
         Printed (py "✅ Created " ++ py "data" ++ py "/");
         Printed (py "✅ Created " ++ py "logs" ++ py "/");
         Printed (py "✅ Created " ++ py "reports" ++ py "/")])
       (<[py "reports" := Dir]>
          (<[py "logs" := Dir]> (<[py "data" := Dir]> (fs sample_world))))
       (spawned sample_world)).
Proof.
  apply (directories_made sample_world);
    intros c; vm_compute; discriminate.
Defined.

(** X24: a regular file at [logs] stops [create_directories] with
    [FileExistsError]; [data], which comes first, has been made and
    reported by then, [reports] has not been tried. *)
Theorem directories_blocked_by_file w c :
  fs w !! py "logs" = Some (File c) →
  (∀ c', fs w !! py "data" ≠ Some (File c')) →
  create_directories w =
    (Raise (OSError FileExistsError),
     mkWorld (host w) (stdin w)
       (stdout w ++
        [Printed (nl ++ py "📁 CREATING DIRECTORIES");
         Printed (str_mul (py "=") 40);
         Printed (py "✅ Created " ++ py "data" ++ py "/")])
       (<[py "data" := Dir]> (fs w))
       (spawned w)).
Proof.
  intros Hlogs Hdata.
  destruct three_names_differ as (Hdl & _).
  destruct three_names_plain as (Pd & _).
  destruct w as [h i o f s]. cbn [fs] in *.
  rewrite create_directories_unfold. world_norm.
  rewrite mkdir_each_cons, Path_mkdir_plain by done. world_norm.
  rewrite mkdir_each_cons. unfold Path_mkdir at 1. cbn [fs].
  rewrite lookup_insert_ne, Hlogs by done.
  by rewrite <- !app_assoc.
Qed.

Lemma directories_blocked_by_file_witness :
  create_directories logs_taken_world =
    (Raise (OSError FileExistsError),
     mkWorld (host logs_taken_world) (stdin logs_taken_world)
       (stdout logs_taken_world ++
        [Printed (nl ++ py "📁 CREATING DIRECTORIES");
         Printed (str_mul (py "=") 40);
         Printed (py "✅ Created " ++ py "data" ++ py "/")])
       (<[py "data" := Dir]> (fs logs_taken_world))
       (spawned logs_taken_world)).
Proof.
  apply (directories_blocked_by_file logs_taken_world (py "old log")).
  - vm_compute. reflexivity.
  - intros c'. vm_compute. discriminate.
Defined.

(** * The pipeline from end to end *)

Lemma print_complete_last w :
  ∃ out,
    print_complete w = (Ret tt, mkWorld (host w) (stdin w) out (fs w) (spawned w)) ∧
    last out = Some (Printed (py "- All trades are logged for review")).
Proof.
  destruct w as [h i o f s].
  assert (∃ w', runs print_complete (mkWorld h i o f s) tt w' ∧
            ∃ out, w' = mkWorld h i out f s ∧
                   last out = Some (Printed (py "- All trades are logged for review")))
    as (w' & Hrun & out & -> & Hlast).
  { eexists. split; [unfold print_complete; repeat run_step|].
    world_norm. eexists. split; [reflexivity|]. apply last_snoc. }
  by exists out.
Qed.

Ltac world_norm_in H :=
  cbv beta iota zeta delta
    [host stdin stdout fs spawned set_stdin set_stdout set_fs set_spawned] in H.

(** X25: on a supported interpreter, with the ten answers followed by the
    choice of a managed platform ([1] or [2]), a package manager that
    succeeds and nothing in the way on the file system, [main] runs all its
    stages and returns, so the process ends with status 0, whatever the
    smoke test does.  It has written the document, made the three
    directories and changed nothing else on the file system; the children
    it started are the package manager and the smoke test, in this order;
    the last line printed closes the completion message. *)
Theorem managed_platform_run_completes
    w major minor a1 a2 a3 a4 a5 a6 a7 a8 a9 a10 c rest el out err :
  version_info (host w) = (major, minor) →
  3 < major ∨ (major = 3 ∧ 9 ≤ minor) →
  read_lines 11 (stdin w)
    = Some ([a1; a2; a3; a4; a5; a6; a7; a8; a9; a10; c], rest) →
  strip c = py "1" ∨ strip c = py "2" →
  child (host w) (pip_install (sys_executable (host w))) = Exits el 0 out err →
  fs w !! py ".env" ≠ Some Dir →
  (∀ x, fs w !! py "data" ≠ Some (File x)) →
  (∀ x, fs w !! py "logs" ≠ Some (File x)) →
  (∀ x, fs w !! py "reports" ≠ Some (File x)) →
  ∃ w' doc,
    main w = (Ret tt, w') ∧ exit_status (main w).1 = 0 ∧
    entries doc =
      env_entries (strip a1) (strip a2) (strip a3) (strip a4) (strip a5)
        (str_or (strip a6) (py "1000"))
        (strip a7) (strip a8) (strip a9) (strip a10) ∧
    fs w' =
      <[py "reports" := Dir]>
        (<[py "logs" := Dir]>
           (<[py "data" := Dir]> (<[py ".env" := File doc]> (fs w)))) ∧
    spawned w' =
      spawned w ++ [pip_install (sys_executable (host w));
                    smoke_test (sys_executable (host w))] ∧
    stdin w' = rest ∧
    last (stdout w') = Some (Printed (py "- All trades are logged for review")).
Proof.
  destruct w as [h i o f s]. cbn [host stdin fs spawned].
  intros Hv Hnew Hin Hc Hpip Henv Hdata Hlogs Hreports.
  destruct three_names_differ as (_ & _ & _ & Hed & Hel & Her).
  (* the answers, then the choice *)
  assert (∃ r10, read_lines 10 i
                   = Some ([a1; a2; a3; a4; a5; a6; a7; a8; a9; a10], r10) ∧
                 read1 r10 = Some (c, rest)) as (r10 & Hten & Hchoice).
  { do 11 (apply read_lines_S in Hin as (? & ? & Hin)). injection Hin as ->.
    eexists. split; [|eassumption]. cbn [read_lines].
    repeat match goal with H : read1 _ = Some _ |- _ => rewrite H; clear H end.
    reflexivity. }
  (* the stages, one after the other *)
  destruct (print_banner_only_prints (mkWorld h i o f s)) as [n1 H1].
  world_norm_in H1.
  pose proof (check_python_version_new (mkWorld h i (o ++ n1) f s) major minor
                Hv Hnew) as H2. world_norm_in H2.
  match type of H2 with _ = (_, mkWorld _ _ ?o2 _ _) =>
    destruct (create_env_file_effect (mkWorld h i o2 f s)
                a1 a2 a3 a4 a5 a6 a7 a8 a9 a10 r10 Hten Henv)
      as (doc & _ & Hentries & H3)
  end. world_norm_in H3.
  match type of H3 with _ = (_, mkWorld _ _ ?o3 ?f3 _) =>
    pose proof (install_dependencies_ok (mkWorld h r10 o3 f3 s) el out err Hpip) as H4
  end. world_norm_in H4.
  match type of H4 with _ = (_, mkWorld _ _ ?o4 ?f4 ?s4) =>
    pose proof (create_directories_effect (mkWorld h r10 o4 f4 s4)) as H5
  end. world_norm_in H5.
  specialize (H5 ltac:(intros x; by rewrite lookup_insert_ne)
                 ltac:(intros x; by rewrite lookup_insert_ne)
                 ltac:(intros x; by rewrite lookup_insert_ne)).
  match type of H5 with _ = (_, ?w5) =>
    destruct (run_tests_frame w5) as (w6 & H6 & F6 & I6 & O6 & S6)
  end.
  destruct w6 as [h6 i6 o6 f6 s6]. cbn [host stdin fs spawned] in F6, I6, O6, S6.
  subst h6 i6 f6 s6.
  match type of H6 with _ = (_, ?w6) =>
    pose proof (dispatch_after_menu w6 c rest Hchoice) as H7;
    destruct (deploy_railway_render_print (chosen w6 rest))
      as [[r1 R1] [r2 R2]]
  end.
  unfold chosen in H7, R1, R2. world_norm_in H7. world_norm_in R1.
  world_norm_in R2.
  assert (∃ o7, show_deployment_options (mkWorld h r10 o6
                   (<[py "reports":=Dir]> (<[py "logs":=Dir]> (<[py "data":=Dir]>
                      (<[py ".env":=File doc]> f))))
                   ((s ++ [pip_install (sys_executable h)]) ++
                    [[sys_executable h; py "tests/test_ai_only.py"]]))
                = (Ret tt, mkWorld h rest o7
                   (<[py "reports":=Dir]> (<[py "logs":=Dir]> (<[py "data":=Dir]>
                      (<[py ".env":=File doc]> f))))
                   ((s ++ [pip_install (sys_executable h)]) ++
                    [[sys_executable h; py "tests/test_ai_only.py"]])))
    as [o7 H7'].
  { rewrite H7. destruct Hc as [-> | ->].
    - eexists. exact R1.
    - eexists. exact R2. }
  match type of H7' with _ = (_, ?w7) =>
    destruct (print_complete_last w7) as (o8 & H8 & Hlast)
  end. world_norm_in H8.
  assert (main (mkWorld h i o f s)
          = (Ret tt, mkWorld h rest o8
               (<[py "reports":=Dir]> (<[py "logs":=Dir]> (<[py "data":=Dir]>
                  (<[py ".env":=File doc]> f))))
               ((s ++ [pip_install (sys_executable h)]) ++
                [[sys_executable h; py "tests/test_ai_only.py"]]))) as Hmain.
  { unfold main. rewrite (bind_runs _ _ _ _ _ H1). cbv beta.
    rewrite (bind_runs _ _ _ _ _ H2). cbv beta.
    rewrite (bind_runs _ _ _ _ _ H3). cbv beta.
    rewrite (bind_runs _ _ _ _ _ H4). cbv beta.
    rewrite (bind_runs _ _ _ _ _ H5). cbv beta.
    rewrite (bind_runs _ _ _ _ _ H6). cbv beta.
    rewrite (bind_runs _ _ _ _ _ H7'). cbv beta.
    exact H8. }
  eexists _, doc. rewrite Hmain. cbn [fst exit_status fs spawned stdin stdout].
  split; [reflexivity|]. split; [reflexivity|]. split; [exact Hentries|].
  split; [reflexivity|]. split; [by rewrite <- app_assoc|].
  split; [reflexivity|exact Hlast].
Qed.

Lemma managed_platform_run_completes_witness :
  ∃ w' doc,
    main sample_world = (Ret tt, w') ∧ exit_status (main sample_world).1 = 0 ∧
    entries doc =
      env_entries (strip (py "sk-abc")) (strip (py "ant")) (strip (py "gsk"))
        (strip (py " AK1 ")) (strip (py "SECRET"))
        (str_or (strip (py " 500 ")) (py "1000"))
        (strip (py "https://hooks.example/x")) (strip (py "from@example.org"))
        (strip (py "to@example.org")) (strip (py "pw")) ∧
    fs w' =
      <[py "reports" := Dir]>
        (<[py "logs" := Dir]>
           (<[py "data" := Dir]> (<[py ".env" := File doc]> (fs sample_world)))) ∧
    spawned w' =
      spawned sample_world
      ++ [pip_install (sys_executable (host sample_world));
          smoke_test (sys_executable (host sample_world))] ∧
    stdin w' = [] ∧
    last (stdout w') = Some (Printed (py "- All trades are logged for review")).
Proof.
  apply (managed_platform_run_completes sample_world 3 11
           (py "sk-abc") (py "ant") (py "gsk") (py " AK1 ") (py "SECRET")
           (py " 500 ") (py "https://hooks.example/x")
           (py "from@example.org") (py "to@example.org") (py "pw")
           (py "1") [] 1 [] []).
  - reflexivity.
  - right. lia.
  - vm_compute. reflexivity.
  - left. vm_compute. reflexivity.
  - reflexivity.
  - vm_compute. discriminate.
  - intros x. vm_compute. discriminate.
  - intros x. vm_compute. discriminate.
  - intros x. vm_compute. discriminate.
Defined.

(** * White space around the answers *)

Lemma lstrip_head s c t : lstrip s = c :: t → is_space c = false.
Proof.
  induction s as [|a s IH]; [done|]. cbn [lstrip].
  destruct (is_space a) eqn:E; [exact IH|]. by intros [= <- _].
Qed.

Lemma lstrip_suffix s : ∃ u, s = u ++ lstrip s.
Proof.
  induction s as [|a s [u IH]]; [by exists []|]. cbn [lstrip].
  destruct (is_space a).
  - exists (a :: u). cbn [app]. by rewrite <- IH.
  - by exists [].
Qed.

Lemma strip_trimmed s : trimmed (strip s).
Proof.
  unfold strip, rstrip. split.
  - intros c t H.
    destruct (lstrip_suffix (rev (lstrip s))) as [u Hu].
    apply (f_equal (@rev N)) in Hu. rewrite rev_involutive, rev_app_distr, H in Hu.
    cbn [app] in Hu. exact (lstrip_head _ _ _ Hu).
  - intros t c H. apply (f_equal (@rev N)) in H.
    rewrite rev_involutive, rev_app_distr in H. cbn [rev app] in H.
    exact (lstrip_head _ _ _ H).
Qed.

Lemma trimmed_1000 : trimmed (py "1000").
Proof.
  split.
  - intros c t H. vm_compute in H. by injection H as <- _.
  - intros t c H. vm_compute in H.
    change ([49; 48; 48] ++ [48] = t ++ [c])%N in H.
    by apply app_inj_tail in H as [_ <-].
Qed.

Lemma str_or_trimmed a b : trimmed a → trimmed b → trimmed (str_or a b).
Proof. by destruct a. Qed.

Lemma env_entries_prompted v1 v2 v3 v4 v5 v6 v7 v8 v9 v10 :
  let E := env_entries v1 v2 v3 v4 v5 v6 v7 v8 v9 v10 in
  kw_get (py "OPENAI_API_KEY") E = Some v1 ∧
  kw_get (py "ANTHROPIC_API_KEY") E = Some v2 ∧
  kw_get (py "GROQ_API_KEY") E = Some v3 ∧
  kw_get (py "ALPACA_API_KEY") E = Some v4 ∧
  kw_get (py "ALPACA_SECRET_KEY") E = Some v5 ∧
  kw_get (py "STARTING_CASH") E = Some v6 ∧
  kw_get (py "SLACK_WEBHOOK") E = Some v7 ∧
  kw_get (py "EMAIL_FROM") E = Some v8 ∧
  kw_get (py "EMAIL_TO") E = Some v9 ∧
  kw_get (py "EMAIL_PASSWORD") E = Some v10.
Proof. vm_compute. repeat split. Qed.

(** X26: whatever white space the operator types around an answer, the
    value written under each of the ten prompted keys has none at either
    end. *)
Theorem config_values_trimmed w a1 a2 a3 a4 a5 a6 a7 a8 a9 a10 rest :
  read_lines 10 (stdin w)
    = Some ([a1; a2; a3; a4; a5; a6; a7; a8; a9; a10], rest) →
  fs w !! py ".env" ≠ Some Dir →
  ∃ w' doc,
    create_env_file w = (Ret tt, w') ∧
    fs w' !! py ".env" = Some (File doc) ∧
    ∀ k, In k prompted_keys → ∃ v, value_of k doc = Some v ∧ trimmed v.
Proof.
  intros Hin Henv.
  destruct (create_env_file_effect w a1 a2 a3 a4 a5 a6 a7 a8 a9 a10 rest Hin Henv)
    as (doc & _ & Hentries & Hrun).
  eexists _, doc. split; [exact Hrun|]. cbn [fs].
  split; [apply lookup_insert_eq|].
  intros k Hk. unfold value_of. rewrite Hentries.
  destruct (env_entries_prompted (strip a1) (strip a2) (strip a3) (strip a4)
              (strip a5) (str_or (strip a6) (py "1000")) (strip a7) (strip a8)
              (strip a9) (strip a10))
    as (E1 & E2 & E3 & E4 & E5 & E6 & E7 & E8 & E9 & E10).
  unfold prompted_keys in Hk.
  destruct Hk as [<-|[<-|[<-|[<-|[<-|[<-|[<-|[<-|[<-|[<-|[]]]]]]]]]]];
    eexists; (split; [eassumption|]);
    first [ apply strip_trimmed
          | apply str_or_trimmed; [apply strip_trimmed|apply trimmed_1000] ].
Qed.

Lemma config_values_trimmed_witness :
  ∃ w' doc,
    create_env_file sample_world = (Ret tt, w') ∧
    fs w' !! py ".env" = Some (File doc) ∧
    ∀ k, In k prompted_keys → ∃ v, value_of k doc = Some v ∧ trimmed v.
Proof.
  apply (config_values_trimmed sample_world
           (py "sk-abc") (py "ant") (py "gsk") (py " AK1 ") (py "SECRET")
           (py " 500 ") (py "https://hooks.example/x")
           (py "from@example.org") (py "to@example.org") (py "pw")
           (py "1" ++ nl)).
  - vm_compute. reflexivity.
  - vm_compute. discriminate.
Defined.

(** * A run that stops at the installation *)

(** X27: when the package manager exits with a non-zero status, [main]
    ends with status 1 and the configuration document written just before
    stays on disk: the file system holds it and is otherwise as before, no
    directory has been made, the package manager is the only child started
    and the deployment choice has not been read. *)
Theorem failed_install_leaves_document
    w major minor a1 a2 a3 a4 a5 a6 a7 a8 a9 a10 rest el rc out err :
  version_info (host w) = (major, minor) →
  3 < major ∨ (major = 3 ∧ 9 ≤ minor) →
  read_lines 10 (stdin w)
    = Some ([a1; a2; a3; a4; a5; a6; a7; a8; a9; a10], rest) →
  child (host w) (pip_install (sys_executable (host w))) = Exits el rc out err →
  rc ≠ 0 →
  fs w !! py ".env" ≠ Some Dir →
  ∃ w' doc,
    main w = (Exit 1, w') ∧
    entries doc =
      env_entries (strip a1) (strip a2) (strip a3) (strip a4) (strip a5)
        (str_or (strip a6) (py "1000"))
        (strip a7) (strip a8) (strip a9) (strip a10) ∧
    fs w' = <[py ".env" := File doc]> (fs w) ∧
    spawned w' = spawned w ++ [pip_install (sys_executable (host w))] ∧
    stdin w' = rest.
Proof.
  destruct w as [h i o f s]. cbn [host stdin fs spawned].
  intros Hv Hnew Hin Hpip Hrc Henv.
  destruct (print_banner_only_prints (mkWorld h i o f s)) as [n1 H1].
  world_norm_in H1.
  pose proof (check_python_version_new (mkWorld h i (o ++ n1) f s) major minor
                Hv Hnew) as H2. world_norm_in H2.
  match type of H2 with _ = (_, mkWorld _ _ ?o2 _ _) =>
    destruct (create_env_file_effect (mkWorld h i o2 f s)
                a1 a2 a3 a4 a5 a6 a7 a8 a9 a10 rest Hin Henv)
      as (doc & _ & Hentries & H3)
  end. world_norm_in H3.
  match type of H3 with _ = (_, mkWorld _ _ ?o3 ?f3 _) =>
    pose proof (install_dependencies_fails (mkWorld h rest o3 f3 s)
                  el rc out err Hpip Hrc) as H4
  end. world_norm_in H4.
  eexists _, doc. split.
  - unfold main. rewrite (bind_runs _ _ _ _ _ H1). cbv beta.
    rewrite (bind_runs _ _ _ _ _ H2). cbv beta.
    rewrite (bind_runs _ _ _ _ _ H3). cbv beta.
    apply bind_exit. exact H4.
  - cbn [fs spawned stdin]. by repeat split.
Qed.

Lemma failed_install_leaves_document_witness :
  ∃ w' doc,
    main pip_fails_world = (Exit 1, w') ∧
    entries doc =
      env_entries (strip (py "sk-abc")) (strip (py "ant")) (strip (py "gsk"))
        (strip (py " AK1 ")) (strip (py "SECRET"))
        (str_or (strip (py " 500 ")) (py "1000"))
        (strip (py "https://hooks.example/x")) (strip (py "from@example.org"))
        (strip (py "to@example.org")) (strip (py "pw")) ∧
    fs w' = <[py ".env" := File doc]> (fs pip_fails_world) ∧
    spawned w' =
      spawned pip_fails_world
      ++ [pip_install (sys_executable (host pip_fails_world))] ∧
    stdin w' = py "1" ++ nl.
Proof.
  apply (failed_install_leaves_document pip_fails_world 3 11
           (py "sk-abc") (py "ant") (py "gsk") (py " AK1 ") (py "SECRET")
           (py " 500 ") (py "https://hooks.example/x")
           (py "from@example.org") (py "to@example.org") (py "pw")
           (py "1" ++ nl) 12 1 [] (py "ERROR: No matching distribution")).
  - reflexivity.
  - right. lia.
  - vm_compute. reflexivity.
  - vm_compute. reflexivity.
  - lia.
  - vm_compute. discriminate.
Defined.
